(** * BIP300 wallet: the sidechain service ([src/services/bip300.ts])

    A shallow embedding of the [BIP300Service] class and of the types it
    uses from [src/types/blockchain.ts], followed by the properties of the
    withdrawal-bundle store.

    Conventions of the embedding.
    - A TypeScript [number] holding a count, an index or an identifier is a
      [Z]; on integers of magnitude below 2^53 the operators [+], [<] and
      [===] of the source agree with [Z.add], [Z.ltb] and [Z.eqb].
    - A [string] is a [string]; [===] on strings is [String.eqb].
    - An array is a [list]; [push] appends at the end, [arr[i]] is a lookup
      that yields [undefined] (here [None]) outside the array.
    - The fields of the service object are threaded through a state and
      exception monad; an [async] method turns the completion of its body
      into a settled promise.
    - A query answers with the stored array or object; the value in the
      response is its content at the time of the call.  What a caller later
      does through that reference is outside the methods. *)

From Stdlib Require Import ZArith List Lia Floats.
From stdpp Require Import base list strings pretty.

Local Open Scope string_scope.
Local Open Scope Z_scope.

(** ** Types of [src/types/blockchain.ts] *)

Inductive BitcoinNetwork := MAINNET | TESTNET | REGTEST.

Record Ctip := { txid : string; vout : Z }.

Record ActivationStatus := { age : Z; fails : Z }.

Record SidechainInfo := {
  escrowNumber : Z;
  version : Z;
  name : string;
  description : string;
  tarballHash : string;
  gitCommitHash : string;
  isActive : bool;
  activationStatus : option ActivationStatus;
  ctip : Ctip;
}.

Record WithdrawalBundle := {
  sidechainNumber : Z;
  bundleHash : string;
  workScore : Z;
  blocksRemaining : Z;
}.

(** [BlockchainResponse<T>]: the optional fields are options. *)
Record BlockchainResponse (T : Type) := {
  success : bool;
  data : option T;
  error : option string;
  code : option Z;
}.
Arguments success {T} _.
Arguments data {T} _.
Arguments error {T} _.
Arguments code {T} _.

(** The two object literals the methods return. *)
Definition ok {T} (d : T) : BlockchainResponse T :=
  {| success := true; data := Some d; error := None; code := None |}.

Definition failed {T} (msg : string) : BlockchainResponse T :=
  {| success := false; data := None; error := Some msg; code := None |}.

(** ** The service object *)

Record BIP300Service := {
  network : BitcoinNetwork;
  sidechains : list SidechainInfo;
  withdrawalBundles : list WithdrawalBundle;
}.

Definition set_network (n : BitcoinNetwork) (s : BIP300Service) : BIP300Service :=
  {| network := n; sidechains := sidechains s;
     withdrawalBundles := withdrawalBundles s |}.

Definition set_sidechains (l : list SidechainInfo) (s : BIP300Service) : BIP300Service :=
  {| network := network s; sidechains := l;
     withdrawalBundles := withdrawalBundles s |}.

Definition set_withdrawalBundles (l : list WithdrawalBundle) (s : BIP300Service)
  : BIP300Service :=
  {| network := network s; sidechains := sidechains s; withdrawalBundles := l |}.

(** ** Exceptions, completions and promises *)

(** The only exception the method bodies can raise is the [TypeError] of a
    property access on [undefined]; [toString] is what a template literal
    makes of the caught value. *)
Inductive JsError := TypeError (msg : string).

Definition toString (e : JsError) : string :=
  match e with TypeError msg => "TypeError: " +:+ msg end.

Inductive Completion (A : Type) :=
| Normal (a : A)
| Throw (e : JsError).
Arguments Normal {A} _.
Arguments Throw {A} _.

Inductive Promise (A : Type) :=
| Fulfilled (a : A)
| Rejected (e : JsError).
Arguments Fulfilled {A} _.
Arguments Rejected {A} _.

(** A method body: it reads and writes the fields of [this] and completes
    normally or abruptly.  Writes made before a throw are kept. *)
Definition M (A : Type) : Type := BIP300Service -> Completion A * BIP300Service.

Definition ret {A} (a : A) : M A := fun s => (Normal a, s).

Definition bind {A B} (m : M A) (k : A -> M B) : M B :=
  fun s => match m s with
           | (Normal a, s') => k a s'
           | (Throw e, s') => (Throw e, s')
           end.

Definition throw {A} (e : JsError) : M A := fun s => (Throw e, s).

Definition gets {A} (f : BIP300Service -> A) : M A := fun s => (Normal (f s), s).

Definition modify (f : BIP300Service -> BIP300Service) : M unit :=
  fun s => (Normal tt, f s).

(** [try { body } catch (error) { handler }] *)
Definition try_catch {A} (body : M A) (handler : JsError -> M A) : M A :=
  fun s => match body s with
           | (Normal a, s') => (Normal a, s')
           | (Throw e, s') => handler e s'
           end.

(** An [async] method: the promise it returns is fulfilled with the value
    the body returns and rejected with the exception that escapes it. *)
Definition async {A} (body : M A) (s : BIP300Service) : Promise A * BIP300Service :=
  match body s with
  | (Normal a, s') => (Fulfilled a, s')
  | (Throw e, s') => (Rejected e, s')
  end.

#[global] Instance M_ret : MRet M := @ret.
#[global] Instance M_bind : MBind M := fun A B k m => bind m k.

(** ** Array operations used by the service *)

(** [Array.prototype.find]: the first element satisfying the callback. *)
Fixpoint find {A} (p : A -> bool) (l : list A) : option A :=
  match l with
  | [] => None
  | x :: r => if p x then Some x else find p r
  end.

(** [Array.prototype.findIndex]: the index of the first element satisfying
    the callback, [-1] when there is none.  [findIndexFrom p l k] scans [l],
    whose head sits at index [k]. *)
Fixpoint findIndexFrom {A} (p : A -> bool) (l : list A) (k : Z) : Z :=
  match l with
  | [] => -1
  | x :: r => if p x then k else findIndexFrom p r (k + 1)
  end.

Definition findIndex {A} (p : A -> bool) (l : list A) : Z := findIndexFrom p l 0.

(** [Array.prototype.filter] with a boolean callback. *)
Definition filterArr {A} (p : A -> bool) (l : list A) : list A := List.filter p l.

(** [arr.push(x)] *)
Definition push {A} (l : list A) (x : A) : list A := l ++ [x].

(** [arr[i]]: [undefined] for an index that is negative or past the end. *)
Definition at_index {A} (l : list A) (i : Z) : option A :=
  if i <? 0 then None else l !! Z.to_nat i.

(** Number to string conversion of a template literal, on integers. *)
Definition numToString (z : Z) : string := pretty z.

(** ** The class [BIP300Service] *)

Definition zeros64 : string :=
  "0000000000000000000000000000000000000000000000000000000000000000".

Definition zeros40 : string := "0000000000000000000000000000000000000000".

Definition mockSidechains : list SidechainInfo :=
  [ {| escrowNumber := 0; version := 1; name := "BitNames";
       description := "Own one username that you use everywhere — replaces DNS, logging in, and email";
       tarballHash := zeros64; gitCommitHash := zeros40; isActive := true;
       activationStatus := None;
       ctip := {| txid := "7ea0d7c5fa0a5a5c1b5f2c8209d90b0cc459450c1ad025680bd7861ed970379c";
                  vout := 0 |} |};
    {| escrowNumber := 1; version := 1; name := "BitAssets";
       description := "A sidechain for issuing Bit-Art (NFTs) and digital assets (ICOs, tokens)";
       tarballHash := zeros64; gitCommitHash := zeros40; isActive := true;
       activationStatus := None;
       ctip := {| txid := "8fa1d8c6fb1b6b6c2c6f3c9d0a90b1cc4694a1c2ad026771bd7972fe981479d";
                  vout := 0 |} |};
    {| escrowNumber := 2; version := 1; name := "zSide";
       description := "A zCash clone, for privacy";
       tarballHash := zeros64; gitCommitHash := zeros40; isActive := true;
       activationStatus := None;
       ctip := {| txid := "9gb2e9d7fc2c7c7d3d7f4dad1a91b2dd5795b2d3be137862ce8983gf992580e";
                  vout := 0 |} |};
    {| escrowNumber := 3; version := 1; name := "Thunder";
       description := "A high performance largeblock sidechain";
       tarballHash := zeros64; gitCommitHash := zeros40; isActive := true;
       activationStatus := None;
       ctip := {| txid := "agc3fad8gd3d8d8e4e8gadad2a92c3ee6896c3e4cf248963df9a94hga93691f";
                  vout := 0 |} |} ].

Definition hash1 : string :=
  "0000000000000000000000000000000000000000000000000000000000000001".

Definition hash2 : string :=
  "0000000000000000000000000000000000000000000000000000000000000002".

Definition mockWithdrawalBundles : list WithdrawalBundle :=
  [ {| sidechainNumber := 0; bundleHash := hash1;
       workScore := 5000; blocksRemaining := 10000 |};
    {| sidechainNumber := 2; bundleHash := hash2;
       workScore := 8000; blocksRemaining := 8000 |} ].

(** [private initializeMockData()] *)
Definition initializeMockData : M unit :=
  modify (set_sidechains mockSidechains);;
  modify (set_withdrawalBundles mockWithdrawalBundles).

(** The field initialisers followed by the constructor body. *)
Definition fieldInitialisers : BIP300Service :=
  {| network := TESTNET; sidechains := []; withdrawalBundles := [] |}.

(** [export const bip300Service = new BIP300Service()] *)
Definition bip300Service : BIP300Service := snd (initializeMockData fieldInitialisers).

(** [setNetwork(network): void] *)
Definition setNetwork (n : BitcoinNetwork) : M unit := modify (set_network n).

(** [async getSidechains()] *)
Definition getSidechains
  : BIP300Service -> Promise (BlockchainResponse (list SidechainInfo)) * BIP300Service :=
  async (try_catch
    (scs ← gets sidechains;
     mret (ok scs))
    (fun e => mret (failed ("Error getting sidechains: " +:+ toString e)))).

(** [async getSidechain(escrowNumber)] *)
Definition getSidechain (escrowNumber' : Z)
  : BIP300Service -> Promise (BlockchainResponse SidechainInfo) * BIP300Service :=
  async (try_catch
    (scs ← gets sidechains;
     match find (fun sc => escrowNumber sc =? escrowNumber') scs with
     | None =>
         mret (failed ("Sidechain with escrow number " +:+ numToString escrowNumber'
                       +:+ " not found"))
     | Some sidechain => mret (ok sidechain)
     end)
    (fun e => mret (failed ("Error getting sidechain: " +:+ toString e)))).

(** [async getWithdrawalBundles()] *)
Definition getWithdrawalBundles
  : BIP300Service -> Promise (BlockchainResponse (list WithdrawalBundle)) * BIP300Service :=
  async (try_catch
    (bs ← gets withdrawalBundles;
     mret (ok bs))
    (fun e => mret (failed ("Error getting withdrawal bundles: " +:+ toString e)))).

(** [async getWithdrawalBundlesForSidechain(sidechainNumber)] *)
Definition getWithdrawalBundlesForSidechain (sidechainNumber' : Z)
  : BIP300Service -> Promise (BlockchainResponse (list WithdrawalBundle)) * BIP300Service :=
  async (try_catch
    (bs ← gets withdrawalBundles;
     let bundles := filterArr (fun bundle => sidechainNumber bundle =? sidechainNumber') bs in
     mret (ok bundles))
    (fun e => mret (failed ("Error getting withdrawal bundles for sidechain: "
                            +:+ toString e)))).

(** [await p]: the value of a fulfilled promise; a rejection is thrown. *)
Definition await {A} (p : BIP300Service -> Promise A * BIP300Service) : M A :=
  fun s => match p s with
           | (Fulfilled a, s') => (Normal a, s')
           | (Rejected e, s') => (Throw e, s')
           end.

Definition mockDepositTxid : string :=
  "7ea0d7c5fa0a5a5c1b5f2c8209d90b0cc459450c1ad025680bd7861ed970379c".

Definition mockWithdrawalTxid : string :=
  "8fa1d8c6fb1b6b6c2c6f3c9d0a90b1cc4694a1c2ad026771bd7972fe981479d".

(** [async createDepositTransaction(sidechainNumber, amount, feeRate)] (M5) *)
Definition createDepositTransaction (sidechainNumber' amount feeRate : Z)
  : BIP300Service -> Promise (BlockchainResponse string) * BIP300Service :=
  async (try_catch
    (sidechainResponse ← await (getSidechain sidechainNumber');
     if negb (success sidechainResponse)
     then mret {| success := false; data := None;
                  error := error sidechainResponse; code := None |}
     else mret (ok mockDepositTxid))
    (fun e => mret (failed ("Error creating deposit transaction: " +:+ toString e)))).

(** [async createWithdrawalBundleProposal(sidechainNumber, bundleHash)] (M3) *)
Definition createWithdrawalBundleProposal (sidechainNumber' : Z) (bundleHash' : string)
  : BIP300Service -> Promise (BlockchainResponse bool) * BIP300Service :=
  async (try_catch
    (bs ← gets withdrawalBundles;
     modify (set_withdrawalBundles
               (push bs {| sidechainNumber := sidechainNumber';
                           bundleHash := bundleHash';
                           workScore := 1;
                           blocksRemaining := 26299 |}));;
     mret (ok true))
    (fun e => mret (failed ("Error creating withdrawal bundle proposal: "
                            +:+ toString e)))).

(** The object at index [i] with its [workScore] field assigned. *)
Definition set_workScore (w : Z) (b : WithdrawalBundle) : WithdrawalBundle :=
  {| sidechainNumber := sidechainNumber b; bundleHash := bundleHash b;
     workScore := w; blocksRemaining := blocksRemaining b |}.

(** [async simulateAckWithdrawalBundle(bundleHash, ackCount)] (M4).
    [this.withdrawalBundles[bundleIndex].workScore += ackCount] reads the
    element, which throws on [undefined], and assigns the field of that
    object in place. *)
Definition simulateAckWithdrawalBundle (bundleHash' : string) (ackCount : Z)
  : BIP300Service -> Promise (BlockchainResponse bool) * BIP300Service :=
  async (try_catch
    (bs ← gets withdrawalBundles;
     let bundleIndex :=
       findIndex (fun bundle => String.eqb (bundleHash bundle) bundleHash') bs in
     if bundleIndex =? -1
     then mret (failed ("Withdrawal bundle with hash " +:+ bundleHash' +:+ " not found"))
     else
       bs' ← gets withdrawalBundles;
       match at_index bs' bundleIndex with
       | None =>
           throw (TypeError "Cannot read properties of undefined (reading 'workScore')")
       | Some bundle =>
           modify (set_withdrawalBundles
                     (<[Z.to_nat bundleIndex :=
                          set_workScore (workScore bundle + ackCount) bundle]> bs'));;
           mret (ok true)
       end)
    (fun e => mret (failed ("Error ACKing withdrawal bundle: " +:+ toString e)))).

(** [async createWithdrawalTransaction(bundleHash)] (M6) *)
Definition createWithdrawalTransaction (bundleHash' : string)
  : BIP300Service -> Promise (BlockchainResponse string) * BIP300Service :=
  async (try_catch
    (bs ← gets withdrawalBundles;
     match find (fun bundle => String.eqb (bundleHash bundle) bundleHash') bs with
     | None =>
         mret (failed ("Withdrawal bundle with hash " +:+ bundleHash' +:+ " not found"))
     | Some bundle =>
         if workScore bundle <? 13150
         then mret (failed ("Withdrawal bundle has not received enough ACKs ("
                            +:+ numToString (workScore bundle) +:+ "/13150)"))
         else mret (ok mockWithdrawalTxid)
     end)
    (fun e => mret (failed ("Error creating withdrawal transaction: " +:+ toString e)))).

(** [async getWithdrawalBundleState(bundleHash)] *)
Definition getWithdrawalBundleState (bundleHash' : string)
  : BIP300Service -> Promise (BlockchainResponse WithdrawalBundle) * BIP300Service :=
  async (try_catch
    (bs ← gets withdrawalBundles;
     match find (fun bundle => String.eqb (bundleHash bundle) bundleHash') bs with
     | None =>
         mret (failed ("Withdrawal bundle with hash " +:+ bundleHash' +:+ " not found"))
     | Some bundle => mret (ok bundle)
     end)
    (fun e => mret (failed ("Error getting withdrawal bundle state: " +:+ toString e)))).

(** ** Calls on the singleton *)

(** A call of a public method with its arguments. *)
Inductive Call :=
| CallSetNetwork (n : BitcoinNetwork)
| CallGetSidechains
| CallGetSidechain (escrowNumber' : Z)
| CallGetWithdrawalBundles
| CallGetWithdrawalBundlesForSidechain (sidechainNumber' : Z)
| CallCreateDepositTransaction (sidechainNumber' amount feeRate : Z)
| CallCreateWithdrawalBundleProposal (sidechainNumber' : Z) (bundleHash' : string)
| CallSimulateAckWithdrawalBundle (bundleHash' : string) (ackCount : Z)
| CallCreateWithdrawalTransaction (bundleHash' : string)
| CallGetWithdrawalBundleState (bundleHash' : string).

(** What the caller receives: nothing from the [void] method, an exception
    from a synchronous method that throws, a promise of a response from an
    [async] method. *)
Inductive Outcome :=
| Void
| Thrown (e : JsError)
| Settled {T : Type} (p : Promise (BlockchainResponse T)).

Definition sync (m : M unit) (s : BIP300Service) : Outcome * BIP300Service :=
  match m s with
  | (Normal _, s') => (Void, s')
  | (Throw e, s') => (Thrown e, s')
  end.

Definition settled {T} (m : BIP300Service -> Promise (BlockchainResponse T) * BIP300Service)
  (s : BIP300Service) : Outcome * BIP300Service :=
  (Settled (fst (m s)), snd (m s)).

Definition exec (c : Call) : BIP300Service -> Outcome * BIP300Service :=
  match c with
  | CallSetNetwork n => sync (setNetwork n)
  | CallGetSidechains => settled getSidechains
  | CallGetSidechain n => settled (getSidechain n)
  | CallGetWithdrawalBundles => settled getWithdrawalBundles
  | CallGetWithdrawalBundlesForSidechain n => settled (getWithdrawalBundlesForSidechain n)
  | CallCreateDepositTransaction n a f => settled (createDepositTransaction n a f)
  | CallCreateWithdrawalBundleProposal n h => settled (createWithdrawalBundleProposal n h)
  | CallSimulateAckWithdrawalBundle h k => settled (simulateAckWithdrawalBundle h k)
  | CallCreateWithdrawalTransaction h => settled (createWithdrawalTransaction h)
  | CallGetWithdrawalBundleState h => settled (getWithdrawalBundleState h)
  end.

(** The states the singleton goes through: the constructed object, and any
    state after one more call. *)
Inductive reachable : BIP300Service -> Prop :=
| reachable_new : reachable bip300Service
| reachable_call c s : reachable s -> reachable (snd (exec c s)).

(** Running a list of calls in order. *)
Definition run (cs : list Call) (s : BIP300Service) : BIP300Service :=
  fold_left (fun st c => snd (exec c st)) cs s.

(** ** Notions used in the statements *)

(** The callback [bundle => bundle.bundleHash === bundleHash]. *)
Definition hasHash (h : string) (bundle : WithdrawalBundle) : bool :=
  String.eqb (bundleHash bundle) h.

(** The callback [bundle => bundle.sidechainNumber === sidechainNumber]. *)
Definition ofSidechain (n : Z) (bundle : WithdrawalBundle) : bool :=
  sidechainNumber bundle =? n.

(** The callback [sc => sc.escrowNumber === escrowNumber]. *)
Definition hasEscrowNumber (n : Z) (sc : SidechainInfo) : bool :=
  escrowNumber sc =? n.

(** [first_at p l i x]: [x] is the first element of [l] accepted by [p], and
    it sits at index [i]. *)
Definition first_at {A} (p : A -> bool) (l : list A) (i : nat) (x : A) : Prop :=
  l !! i = Some x /\ p x = true /\
  forall j y, (j < i)%nat -> l !! j = Some y -> p y = false.

(** The bundle the object literal of [createWithdrawalBundleProposal] builds. *)
Definition proposedBundle (n : Z) (h : string) : WithdrawalBundle :=
  {| sidechainNumber := n; bundleHash := h; workScore := 1; blocksRemaining := 26299 |}.

(** A stored bundle is being scored when an ACK addressed to its hash lands
    on it, that is when [findIndex] on its hash yields its index.  The store
    has no state field: this is the only sense in which the code
    distinguishes bundles. *)
Definition isScored (bs : list WithdrawalBundle) (i : nat) : bool :=
  match bs !! i with
  | Some b => findIndex (hasHash (bundleHash b)) bs =? Z.of_nat i
  | None => false
  end.

(** The indices of the bundles of sidechain [n] that are being scored. *)
Definition scoredFor (n : Z) (bs : list WithdrawalBundle) : list nat :=
  List.filter
    (fun i => isScored bs i &&
              match bs !! i with Some b => ofSidechain n b | None => false end)
    (seq 0 (length bs)).

(** How many stored bundles carry sidechain number [n] and hash [h]. *)
Definition copies (n : Z) (h : string) (bs : list WithdrawalBundle) : nat :=
  length (List.filter (fun b => ofSidechain n b && hasHash h b) bs).

(** A response is structured when it is a success carrying data and no
    error, or a failure carrying an error message and no data. *)
Definition structured {T} (r : BlockchainResponse T) : Prop :=
  (success r = true /\ is_Some (data r) /\ error r = None) \/
  (success r = false /\ data r = None /\ is_Some (error r)).

(** The ACK threshold and the deadline window, as the literals of the source. *)
Definition ackThreshold : Z := 13150.
Definition deadlineWindow : Z := 26299.

(** [blocksRemaining] of the block window model, as the specification words
    it: [max(0, deadlineWindow - blocksElapsed)]. *)
Definition spec_blocksRemaining (blocksElapsed : Z) : Z :=
  Z.max 0 (deadlineWindow - blocksElapsed).

(** ** The specification's sentences that the code does not follow

    Each definition below words one sentence of the specification as it is
    written, over the operations above; the counterexamples refute them and
    the theorems next to them state what the code does instead. *)

(** Supersession: an existing scored bundle of the sidechain stops being
    scored, and the inserted bundle is scored with [workScore] 0. *)
Definition spec_supersession (s : BIP300Service) (n : Z) (h : string) : Prop :=
  forall i b,
    withdrawalBundles s !! i = Some b -> sidechainNumber b = n ->
    isScored (withdrawalBundles s) i = true ->
    let s' := snd (createWithdrawalBundleProposal n h s) in
    isScored (withdrawalBundles s') i = false /\
    exists b', withdrawalBundles s' !! length (withdrawalBundles s) = Some b' /\
               isScored (withdrawalBundles s') (length (withdrawalBundles s)) = true /\
               workScore b' = 0.

(** Single-active invariant: at most one scored bundle per sidechain. *)
Definition spec_single_active (s : BIP300Service) : Prop :=
  forall n, (length (scoredFor n (withdrawalBundles s)) <= 1)%nat.

(** The sidechain number is not registered, or its sidechain is inactive. *)
Definition unknownSidechain (s : BIP300Service) (n : Z) : Prop :=
  match find (hasEscrowNumber n) (sidechains s) with
  | None => True
  | Some sc => isActive sc = false
  end.

(** A proposal for an unknown sidechain fails and inserts nothing. *)
Definition spec_unknown_sidechain (s : BIP300Service) (n : Z) (h : string) : Prop :=
  unknownSidechain s n ->
  exists r, fst (createWithdrawalBundleProposal n h s) = Fulfilled r /\
            success r = false /\
            withdrawalBundles (snd (createWithdrawalBundleProposal n h s))
            = withdrawalBundles s.

(** A proposal whose hash is already stored for the sidechain fails and
    inserts no second bundle with that hash. *)
Definition spec_duplicate_bundle (s : BIP300Service) (n : Z) (h : string) : Prop :=
  (0 < copies n h (withdrawalBundles s))%nat ->
  exists r, fst (createWithdrawalBundleProposal n h s) = Fulfilled r /\
            success r = false /\
            copies n h (withdrawalBundles (snd (createWithdrawalBundleProposal n h s)))
            = copies n h (withdrawalBundles s).

(** A successful ACK raises the work score of the bundle by exactly 1 and
    changes no other work score. *)
Definition spec_ack_increments_by_one (s : BIP300Service) (h : string) (k : Z) : Prop :=
  forall r, fst (simulateAckWithdrawalBundle h k s) = Fulfilled r -> success r = true ->
  let bs := withdrawalBundles s in
  let bs' := withdrawalBundles (snd (simulateAckWithdrawalBundle h k s)) in
  exists i b b',
    bs !! i = Some b /\ bundleHash b = h /\ bs' !! i = Some b' /\
    workScore b' = workScore b + 1 /\
    forall j, j <> i -> workScore <$> (bs' !! j) = workScore <$> (bs !! j).

(** Every public operation hands its caller a structured response. *)
Definition spec_structured_result (c : Call) (s : BIP300Service) : Prop :=
  exists (T : Type) (r : BlockchainResponse T),
    fst (exec c s) = Settled (Fulfilled r) /\ structured r.

(** Sample inputs of the examples. *)
Definition hash3 : string :=
  "0000000000000000000000000000000000000000000000000000000000000003".

(** A service whose only sidechain, number 5, is registered and inactive. *)
Definition inactiveSample : BIP300Service :=
  {| network := TESTNET;
     sidechains :=
       [ {| escrowNumber := 5; version := 1; name := "Dormant";
            description := "A registered sidechain that is not active";
            tarballHash := zeros64; gitCommitHash := zeros40; isActive := false;
            activationStatus := None;
            ctip := {| txid := zeros64; vout := 0 |} |} ];
     withdrawalBundles := [] |}.

(** ** Notions used by the further properties *)

(** Whether the promise a method returned is fulfilled with a success. *)
Definition succeeds {T} (p : Promise (BlockchainResponse T)) : bool :=
  match p with
  | Fulfilled r => success r
  | Rejected _ => false
  end.

(** The fields of a stored bundle that no method assigns after the push. *)
Definition bundleKey (b : WithdrawalBundle) : Z * string * Z :=
  (sidechainNumber b, bundleHash b, blocksRemaining b).

(** The keys of the bundles the proposals among a list of calls push, in
    the order of the calls. *)
Definition proposalKeys (cs : list Call) : list (Z * string * Z) :=
  flat_map (fun c => match c with
                     | CallCreateWithdrawalBundleProposal n h => [(n, h, 26299)]
                     | _ => []
                     end) cs.

(** A call that lowers no work score: any call but an ACK whose [ackCount]
    is negative. *)
Definition lowersNoScore (c : Call) : Prop :=
  match c with
  | CallSimulateAckWithdrawalBundle _ k => 0 <= k
  | _ => True
  end.

(** * The wallet service ([src/services/wallet.ts])

    The wallet service holds the wallets and calls the BIP300 singleton.
    Balances are fractional numbers: they are binary64 floats, as in the
    source.  The values [Math.random()] returns during a call are inputs
    of that call, given in the order they are drawn.  The Electrum
    singleton, which [setNetwork] notifies, has fields of its own and
    timers; it is not part of the state here. *)

#[local] Set Warnings "-inexact-float".

(** [bip300Service.createDepositTransaction] as the wallet calls it, with a
    fractional amount and fee rate; the method reads neither. *)
Definition createDepositTransaction' (sidechainNumber' : Z) (amount feeRate : float)
  : BIP300Service -> Promise (BlockchainResponse string) * BIP300Service :=
  async (try_catch
    (sidechainResponse ← await (getSidechain sidechainNumber');
     if negb (success sidechainResponse)
     then mret {| success := false; data := None;
                  error := error sidechainResponse; code := None |}
     else mret (ok mockDepositTxid))
    (fun e => mret (failed ("Error creating deposit transaction: " +:+ toString e)))).

Module WalletAccount.

(** The balance objects [{ confirmed, unconfirmed, total }]. *)
Record Balance := {
  confirmed : float;
  unconfirmed : float;
  total : float;
}.

Inductive WalletType := hd | imported.

(** [WalletAccount] of [src/types/blockchain.ts].  [sidechainBalances] is an
    object keyed by sidechain number: the entries are listed in the order
    [Object.keys] enumerates them. *)
Record t := {
  id : string;
  name : string;
  type : WalletType;
  network : BitcoinNetwork;
  balance : Balance;
  sidechainBalances : list (Z * Balance);
}.

Definition set_total (x : float) (b : Balance) : Balance :=
  {| confirmed := confirmed b; unconfirmed := unconfirmed b; total := x |}.

Definition set_balances (b : Balance) (sb : list (Z * Balance)) (wallet : t) : t :=
  {| id := id wallet; name := name wallet; type := type wallet;
     network := network wallet; balance := b; sidechainBalances := sb |}.

End WalletAccount.

Module Wallet.
Import WalletAccount.

Record WalletService := {
  wallets : list t;
  activeWalletId : option string;
  network : BitcoinNetwork;
}.

Definition set_wallets (l : list t) (this : WalletService) : WalletService :=
  {| wallets := l; activeWalletId := activeWalletId this; network := network this |}.

Definition set_activeWalletId (a : option string) (this : WalletService) : WalletService :=
  {| wallets := wallets this; activeWalletId := a; network := network this |}.

Definition set_network (n : BitcoinNetwork) (this : WalletService) : WalletService :=
  {| wallets := wallets this; activeWalletId := activeWalletId this; network := n |}.

(** The two singletons the methods of the wallet service read and write. *)
Record World := {
  walletService : WalletService;
  bip300 : BIP300Service;
}.

Definition on_wallet (f : WalletService -> WalletService) (w : World) : World :=
  {| walletService := f (walletService w); bip300 := bip300 w |}.

Definition on_bip300 (f : BIP300Service -> BIP300Service) (w : World) : World :=
  {| walletService := walletService w; bip300 := f (bip300 w) |}.

(** Method bodies over the two singletons, with the completions and
    promises of the BIP300 service. *)
Definition W (A : Type) : Type := World -> Completion A * World.

#[global] Instance W_ret : MRet W := fun A a w => (Normal a, w).
#[global] Instance W_bind : MBind W := fun A B k m w =>
  match m w with
  | (Normal a, w') => k a w'
  | (Throw e, w') => (Throw e, w')
  end.

Definition gets {A} (f : World -> A) : W A := fun w => (Normal (f w), w).

Definition modify (f : World -> World) : W unit := fun w => (Normal tt, f w).

Definition try_catch {A} (body : W A) (handler : JsError -> W A) : W A :=
  fun w => match body w with
           | (Normal a, w') => (Normal a, w')
           | (Throw e, w') => handler e w'
           end.

Definition async {A} (body : W A) (w : World) : Promise A * World :=
  match body w with
  | (Normal a, w') => (Fulfilled a, w')
  | (Throw e, w') => (Rejected e, w')
  end.

(** [await bip300Service.method(...)] *)
Definition await_bip300 {A}
    (p : BIP300Service -> Promise A * BIP300Service) : W A :=
  fun w => match p (bip300 w) with
           | (Fulfilled a, b') => (Normal a, on_bip300 (fun _ => b') w)
           | (Rejected e, b') => (Throw e, on_bip300 (fun _ => b') w)
           end.

(** A call whose promise is dropped: its synchronous effects stay. *)
Definition dropped {A} (p : World -> Promise A * World) : W unit :=
  fun w => (Normal tt, snd (p w)).

(** Truthiness of a string that may be [null] or [undefined]. *)
Definition truthy (x : option string) : bool :=
  match x with
  | None => false
  | Some EmptyString => false
  | Some _ => true
  end.

(** [x || fallback] on such a string. *)
Definition orElse (x : option string) (fallback : string) : string :=
  match x with
  | None => fallback
  | Some EmptyString => fallback
  | Some v => v
  end.

(** The object [find] returned is assigned in place: the first element the
    callback accepts is the one that changes. *)
Fixpoint updateFirst {A} (p : A -> bool) (f : A -> A) (l : list A) : list A :=
  match l with
  | [] => []
  | x :: r => if p x then f x :: r else x :: updateFirst p f r
  end.

Definition mockWallet : t :=
  {| id := "1"; name := "Demo Wallet"; type := hd;
     WalletAccount.network := TESTNET;
     balance := {| confirmed := 0.1; unconfirmed := 0.05; total := 0.15 |};
     sidechainBalances :=
       [ (0, {| confirmed := 0.02; unconfirmed := 0; total := 0.02 |});
         (2, {| confirmed := 0.03; unconfirmed := 0; total := 0.03 |}) ] |}.

(** The field initialisers and [initializeMockData()] of the constructor. *)
Definition walletService0 : WalletService :=
  {| wallets := push [] mockWallet; activeWalletId := Some (id mockWallet);
     network := TESTNET |}.

(** The two singletons as the modules export them. *)
Definition world0 : World :=
  {| walletService := walletService0; bip300 := bip300Service |}.

(** [setNetwork(network): void].  [electrumService.connect(network)] is an
    [async] call on the Electrum singleton whose promise is dropped. *)
Definition setNetwork (n : BitcoinNetwork) (w : World) : World :=
  let w := on_wallet (set_network n) w in
  on_bip300 (fun b => snd (sync (setNetwork n) b)) w.

(** [getNetwork()] *)
Definition getNetwork (this : WalletService) : BitcoinNetwork := network this.

(** [getWallets()] *)
Definition getWallets (this : WalletService) : list t := wallets this.

(** [getWallet(id)] *)
Definition getWallet (id' : string) (this : WalletService) : option t :=
  find (fun wallet => String.eqb (id wallet) id') (wallets this).

(** [getActiveWallet()] *)
Definition getActiveWallet (this : WalletService) : option t :=
  if negb (truthy (activeWalletId this)) then None
  else getWallet (orElse (activeWalletId this) EmptyString) this.

(** [setActiveWallet(id)] *)
Definition setActiveWallet (id' : string) (this : WalletService)
  : bool * WalletService :=
  match getWallet id' this with
  | None => (false, this)
  | Some _ => (true, set_activeWalletId (Some id') this)
  end.

Definition mockMnemonic : string :=
  "abandon abandon abandon abandon abandon abandon abandon abandon abandon abandon abandon about".

(** The object literal [newWallet] of [createWallet] and [restoreWallet]. *)
Definition newWallet (name' : string) (this : WalletService) : t :=
  {| id := numToString (Z.of_nat (length (wallets this)) + 1);
     name := name';
     type := hd;
     WalletAccount.network := network this;
     balance := {| confirmed := 0; unconfirmed := 0; total := 0 |};
     sidechainBalances := [] |}.

(** The data of a [createWallet] response. *)
Record Created := { wallet : t; mnemonic : string }.

(** [async createWallet(name, passphrase?)] *)
Definition createWallet (name' : string) (passphrase : option string)
  : World -> Promise (BlockchainResponse Created) * World :=
  async (try_catch
    (this ← gets walletService;
     let newWallet := newWallet name' this in
     modify (on_wallet (fun this => set_wallets (push (wallets this) newWallet) this));;
     modify (on_wallet (set_activeWalletId (Some (id newWallet))));;
     mret (ok {| wallet := newWallet; mnemonic := mockMnemonic |}))
    (fun e => mret (failed ("Error creating wallet: " +:+ toString e)))).

(** [async restoreWallet(name, mnemonic, passphrase?)] *)
Definition restoreWallet (name' mnemonic' : string) (passphrase : option string)
  : World -> Promise (BlockchainResponse t) * World :=
  async (try_catch
    (this ← gets walletService;
     let newWallet := newWallet name' this in
     modify (on_wallet (fun this => set_wallets (push (wallets this) newWallet) this));;
     modify (on_wallet (set_activeWalletId (Some (id newWallet))));;
     mret (ok newWallet))
    (fun e => mret (failed ("Error restoring wallet: " +:+ toString e)))).

(** The assignments of [updateBalances] to the wallet it found; [r1] to
    [r4] are the results of its four [Math.random()] calls, in order. *)
Definition refreshed (r1 r2 r3 r4 : float) (wallet : t) : t :=
  let balance := {| confirmed := r1 * 0.2; unconfirmed := r2 * 0.1; total := 0 |} in
  let balance := set_total (confirmed balance + unconfirmed balance) balance in
  let sidechainBalances :=
    [ (0, {| confirmed := r3 * 0.05; unconfirmed := 0; total := 0 |});
      (2, {| confirmed := r4 * 0.05; unconfirmed := 0; total := 0 |}) ] in
  let sidechainBalances :=
    map (fun entry : Z * Balance =>
           let sidechain := snd entry in
           (fst entry, set_total (confirmed sidechain + unconfirmed sidechain) sidechain))
        sidechainBalances in
  set_balances balance sidechainBalances wallet.

(** [async updateBalances(walletId?)] *)
Definition updateBalances (walletId : option string) (r1 r2 r3 r4 : float)
  : World -> Promise (BlockchainResponse bool) * World :=
  async (try_catch
    (this ← gets walletService;
     let wallet := if truthy walletId
                   then getWallet (orElse walletId EmptyString) this
                   else getActiveWallet this in
     match wallet with
     | None => mret (failed "Wallet not found")
     | Some wallet =>
         modify (on_wallet (fun this =>
           set_wallets
             (updateFirst (fun x => String.eqb (id x) (id wallet))
                          (refreshed r1 r2 r3 r4) (wallets this)) this));;
         mret (ok true)
     end)
    (fun e => mret (failed ("Error updating balances: " +:+ toString e)))).

Definition mockSendTxid : string :=
  "9gb2e9d7fc2c7c7d3d7f4dad1a91b2dd5795b2d3be137862ce8983gf992580e".

(** [async sendTransaction(recipientAddress, amount, feeRate)] *)
Definition sendTransaction (recipientAddress : string) (amount feeRate : float)
  : World -> Promise (BlockchainResponse string) * World :=
  async (try_catch
    (this ← gets walletService;
     match getActiveWallet this with
     | None => mret (failed "No active wallet")
     | Some wallet =>
         if (total (balance wallet) <? amount)%float
         then mret (failed "Insufficient funds")
         else mret (ok mockSendTxid)
     end)
    (fun e => mret (failed ("Error sending transaction: " +:+ toString e)))).

(** [async depositToSidechain(sidechainNumber, amount, feeRate)] (M5);
    [r1] to [r4] are the results of the [Math.random()] calls of the
    [updateBalances()] it starts. *)
Definition depositToSidechain (sidechainNumber' : Z) (amount feeRate : float)
    (r1 r2 r3 r4 : float)
  : World -> Promise (BlockchainResponse string) * World :=
  async (try_catch
    (this ← gets walletService;
     match getActiveWallet this with
     | None => mret (failed "No active wallet")
     | Some wallet =>
         if (total (balance wallet) <? amount)%float
         then mret (failed "Insufficient funds")
         else
           response ← await_bip300
                        (createDepositTransaction' sidechainNumber' amount feeRate);
           if success response && truthy (data response)
           then
             dropped (updateBalances None r1 r2 r3 r4);;
             mret (ok (orElse (data response) EmptyString))
           else
             mret (failed (orElse (error response)
                             "Error creating deposit transaction"))
     end)
    (fun e => mret (failed ("Error depositing to sidechain: " +:+ toString e)))).

(** [async getNewAddress()] *)
Definition getNewAddress
  : World -> Promise (BlockchainResponse string) * World :=
  async (try_catch
    (mret (ok "tb1qnv5luf8mav8263sxfa4fdr3m6kws74n0yfzzrx"))
    (fun e => mret (failed ("Error getting new address: " +:+ toString e)))).

(** A call that can change one of the two singletons, with its arguments:
    a method of the wallet service, or a method of the BIP300 service
    called by other code. *)
Inductive Action :=
| SetNetwork (n : BitcoinNetwork)
| CreateWallet (name' : string) (passphrase : option string)
| RestoreWallet (name' mnemonic' : string) (passphrase : option string)
| SetActiveWallet (id' : string)
| UpdateBalances (walletId : option string) (r1 r2 r3 r4 : float)
| SendTransaction (recipientAddress : string) (amount feeRate : float)
| DepositToSidechain (sidechainNumber' : Z) (amount feeRate : float)
    (r1 r2 r3 r4 : float)
| GetNewAddress
| Bip300 (c : Call).

(** The two singletons after a call. *)
Definition perform (a : Action) (w : World) : World :=
  match a with
  | SetNetwork n => setNetwork n w
  | CreateWallet n p => snd (createWallet n p w)
  | RestoreWallet n m p => snd (restoreWallet n m p w)
  | SetActiveWallet i => on_wallet (fun this => snd (setActiveWallet i this)) w
  | UpdateBalances i r1 r2 r3 r4 => snd (updateBalances i r1 r2 r3 r4 w)
  | SendTransaction a x f => snd (sendTransaction a x f w)
  | DepositToSidechain n x f r1 r2 r3 r4 =>
      snd (depositToSidechain n x f r1 r2 r3 r4 w)
  | GetNewAddress => snd (getNewAddress w)
  | Bip300 c => on_bip300 (fun b => snd (exec c b)) w
  end.

Inductive reachable : World -> Prop :=
| reachable_new : reachable world0
| reachable_call a w : reachable w -> reachable (perform a w).

End Wallet.

(** The wallets are numbered when the wallet at index [i] has the id
    [(i + 1).toString()]. *)
Definition numbered (ws : list WalletAccount.t) : Prop :=
  forall i wallet, ws !! i = Some wallet ->
                   WalletAccount.id wallet = numToString (Z.of_nat i + 1).

(** The callback [wallet => wallet.id === id]. *)
Definition hasId (id' : string) (wallet : WalletAccount.t) : bool :=
  String.eqb (WalletAccount.id wallet) id'.

(** The wallet a call of [updateBalances(walletId)] works on. *)
Definition selectedWallet (walletId : option string) (this : Wallet.WalletService)
  : option WalletAccount.t :=
  if Wallet.truthy walletId
  then Wallet.getWallet (Wallet.orElse walletId EmptyString) this
  else Wallet.getActiveWallet this.

(** * Properties *)

(** ** The array operations *)

Section Arrays.
Context {A : Type} (p : A -> bool).

Lemma find_None (l : list A) :
  find p l = None -> Forall (fun x => p x = false) l.
Proof.
  induction l as [|x l IH]; simpl; [constructor|].
  destruct (p x) eqn:Hx; [discriminate|].
  intros H. constructor; auto.
Qed.

Lemma find_first (l : list A) (x : A) :
  find p l = Some x -> exists i, first_at p l i x.
Proof.
  induction l as [|y l IH]; simpl; [discriminate|].
  destruct (p y) eqn:Hy.
  - intros [= ->]. exists 0%nat. repeat split; auto. intros j z Hj. lia.
  - intros H. destruct (IH H) as (i & Hi & Hp & Hlt).
    exists (S i). repeat split; auto.
    intros [|j] z Hj Hz; simpl in Hz.
    + congruence.
    + apply (Hlt j); [lia | assumption].
Qed.

Lemma first_at_find (l : list A) (i : nat) (x : A) :
  first_at p l i x -> find p l = Some x.
Proof.
  revert i. induction l as [|y l IH]; intros i (Hi & Hp & Hlt).
  - destruct i; discriminate.
  - simpl. destruct i as [|i]; simpl in Hi.
    + injection Hi as ->. now rewrite Hp.
    + rewrite (Hlt 0%nat y) by (simpl; auto; lia).
      apply (IH i). repeat split; auto.
      intros j z Hj Hz. apply (Hlt (S j) z); [lia | exact Hz].
Qed.

Lemma findIndexFrom_None (l : list A) (k : Z) :
  Forall (fun x => p x = false) l -> findIndexFrom p l k = -1.
Proof.
  intros H. revert k. induction H as [|x l Hx _ IH]; intros k; simpl; [reflexivity|].
  rewrite Hx. apply IH.
Qed.

Lemma findIndexFrom_first (l : list A) (k : Z) (i : nat) (x : A) :
  first_at p l i x -> findIndexFrom p l k = k + Z.of_nat i.
Proof.
  revert k i. induction l as [|y l IH]; intros k i (Hi & Hp & Hlt).
  - destruct i; discriminate.
  - simpl. destruct i as [|i]; simpl in Hi.
    + injection Hi as ->. rewrite Hp. lia.
    + rewrite (Hlt 0%nat y) by (simpl; auto; lia).
      rewrite (IH (k + 1) i); [lia|].
      repeat split; auto.
      intros j z Hj Hz. apply (Hlt (S j) z); [lia | exact Hz].
Qed.

(** [findIndex] answers [-1] exactly when no element is accepted, and the
    index of the first accepted element otherwise. *)
Lemma findIndex_cases (l : list A) :
  (findIndex p l = -1 /\ Forall (fun x => p x = false) l) \/
  (exists i x, findIndex p l = Z.of_nat i /\ first_at p l i x).
Proof.
  destruct (find p l) as [x|] eqn:Hf.
  - right. destruct (find_first l x Hf) as [i Hi].
    exists i, x. split; [|exact Hi].
    unfold findIndex. rewrite (findIndexFrom_first l 0 i x Hi). lia.
  - left. pose proof (find_None l Hf) as H. split; [|exact H].
    now apply findIndexFrom_None.
Qed.

Lemma first_at_unique (l : list A) (i j : nat) (x y : A) :
  first_at p l i x -> first_at p l j y -> i = j /\ x = y.
Proof.
  intros (Hi & Hpx & Hlti) (Hj & Hpy & Hltj).
  assert (i = j) as ->.
  { destruct (lt_eq_lt_dec i j) as [[Hlt|Heq]|Hgt]; [|exact Heq|].
    - rewrite (Hltj i x Hlt Hi) in Hpx. discriminate.
    - rewrite (Hlti j y Hgt Hj) in Hpy. discriminate. }
  split; congruence.
Qed.

Lemma first_at_push (l : list A) (i : nat) (x y : A) :
  first_at p l i x -> first_at p (push l y) i x.
Proof.
  intros (Hi & Hp & Hlt). unfold push.
  assert (i < length l)%nat as Hlen by (eapply lookup_lt_Some; eauto).
  repeat split; auto.
  - rewrite lookup_app_l; auto.
  - intros j z Hj Hz. rewrite lookup_app_l in Hz by lia. eauto.
Qed.

Lemma first_at_pushed (l : list A) (y : A) :
  Forall (fun x => p x = false) l -> p y = true ->
  first_at p (push l y) (length l) y.
Proof.
  intros Hall Hy. unfold push. repeat split; auto.
  - rewrite lookup_app_r by lia. now rewrite Nat.sub_diag.
  - intros j z Hj Hz. rewrite lookup_app_l in Hz by lia.
    rewrite Forall_forall in Hall. apply Hall.
    apply list_elem_of_lookup. eauto.
Qed.

Lemma at_index_of_nat (l : list A) (i : nat) : at_index l (Z.of_nat i) = l !! i.
Proof.
  unfold at_index. destruct (Z.ltb_spec (Z.of_nat i) 0); [lia|].
  now rewrite Nat2Z.id.
Qed.
End Arrays.

(** ** What each method computes *)

Ltac run_method :=
  unfold async, try_catch, await, mbind, M_bind, mret, M_ret, bind, ret, gets,
    modify, throw; simpl.

Lemma proposal_runs (n : Z) (h : string) (s : BIP300Service) :
  createWithdrawalBundleProposal n h s
  = (Fulfilled (ok true),
     set_withdrawalBundles (push (withdrawalBundles s) (proposedBundle n h)) s).
Proof. reflexivity. Qed.

Lemma ack_unknown (h : string) (k : Z) (s : BIP300Service) :
  Forall (fun b => hasHash h b = false) (withdrawalBundles s) ->
  simulateAckWithdrawalBundle h k s
  = (Fulfilled (failed ("Withdrawal bundle with hash " +:+ h +:+ " not found")), s).
Proof.
  intros Hall. unfold simulateAckWithdrawalBundle. run_method.
  change (fun bundle : WithdrawalBundle => String.eqb (bundleHash bundle) h)
    with (hasHash h).
  unfold findIndex. rewrite (findIndexFrom_None _ _ 0 Hall). reflexivity.
Qed.

Lemma ack_known (h : string) (k : Z) (s : BIP300Service) (i : nat) (b : WithdrawalBundle) :
  first_at (hasHash h) (withdrawalBundles s) i b ->
  simulateAckWithdrawalBundle h k s
  = (Fulfilled (ok true),
     set_withdrawalBundles
       (<[i := set_workScore (workScore b + k) b]> (withdrawalBundles s)) s).
Proof.
  intros Hfirst. unfold simulateAckWithdrawalBundle. run_method.
  change (fun bundle : WithdrawalBundle => String.eqb (bundleHash bundle) h)
    with (hasHash h).
  unfold findIndex. rewrite (findIndexFrom_first _ _ 0 i b Hfirst), Z.add_0_l.
  destruct (Z.eqb_spec (Z.of_nat i) (-1)) as [Hneg|_]; [lia|].
  rewrite at_index_of_nat. destruct Hfirst as (-> & _ & _).
  now rewrite Nat2Z.id.
Qed.

Lemma withdrawal_unknown (h : string) (s : BIP300Service) :
  find (hasHash h) (withdrawalBundles s) = None ->
  createWithdrawalTransaction h s
  = (Fulfilled (failed ("Withdrawal bundle with hash " +:+ h +:+ " not found")), s).
Proof.
  intros Hf. unfold createWithdrawalTransaction. run_method.
  change (fun bundle : WithdrawalBundle => String.eqb (bundleHash bundle) h)
    with (hasHash h).
  now rewrite Hf.
Qed.

Lemma withdrawal_known (h : string) (s : BIP300Service) (b : WithdrawalBundle) :
  find (hasHash h) (withdrawalBundles s) = Some b ->
  createWithdrawalTransaction h s
  = (Fulfilled
       (if workScore b <? 13150
        then failed ("Withdrawal bundle has not received enough ACKs ("
                     +:+ numToString (workScore b) +:+ "/13150)")
        else ok mockWithdrawalTxid), s).
Proof.
  intros Hf. unfold createWithdrawalTransaction. run_method.
  change (fun bundle : WithdrawalBundle => String.eqb (bundleHash bundle) h)
    with (hasHash h).
  rewrite Hf. now destruct (workScore b <? 13150).
Qed.

Lemma getSidechain_runs (n : Z) (s : BIP300Service) :
  getSidechain n s
  = (Fulfilled
       match find (hasEscrowNumber n) (sidechains s) with
       | None => failed ("Sidechain with escrow number " +:+ numToString n +:+ " not found")
       | Some sc => ok sc
       end, s).
Proof.
  unfold getSidechain. run_method.
  change (fun sc : SidechainInfo => escrowNumber sc =? n) with (hasEscrowNumber n).
  now destruct (find (hasEscrowNumber n) (sidechains s)).
Qed.

Lemma getState_runs (h : string) (s : BIP300Service) :
  getWithdrawalBundleState h s
  = (Fulfilled
       match find (hasHash h) (withdrawalBundles s) with
       | None => failed ("Withdrawal bundle with hash " +:+ h +:+ " not found")
       | Some b => ok b
       end, s).
Proof.
  unfold getWithdrawalBundleState. run_method.
  change (fun bundle : WithdrawalBundle => String.eqb (bundleHash bundle) h)
    with (hasHash h).
  now destruct (find (hasHash h) (withdrawalBundles s)).
Qed.

Lemma deposit_runs (n amount feeRate : Z) (s : BIP300Service) :
  createDepositTransaction n amount feeRate s
  = (Fulfilled
       match find (hasEscrowNumber n) (sidechains s) with
       | None => failed ("Sidechain with escrow number " +:+ numToString n +:+ " not found")
       | Some _ => ok mockDepositTxid
       end, s).
Proof.
  unfold createDepositTransaction. run_method. rewrite getSidechain_runs.
  now destruct (find (hasEscrowNumber n) (sidechains s)).
Qed.

Lemma hasHash_true (h : string) (b : WithdrawalBundle) :
  hasHash h b = true <-> bundleHash b = h.
Proof. unfold hasHash. apply String.eqb_eq. Qed.

Lemma hasHash_false (h : string) (b : WithdrawalBundle) :
  hasHash h b = false <-> bundleHash b <> h.
Proof. unfold hasHash. apply String.eqb_neq. Qed.

Lemma filterArr_filter (n : Z) (bs : list WithdrawalBundle) :
  filterArr (ofSidechain n) bs = filter (fun b => sidechainNumber b = n) bs.
Proof.
  unfold filterArr. induction bs as [|b bs IH]; [reflexivity|].
  simpl. unfold ofSidechain at 1.
  destruct (Z.eqb_spec (sidechainNumber b) n) as [Heq|Hne].
  - rewrite filter_cons_True by exact Heq. now rewrite IH.
  - rewrite filter_cons_False by exact Hne. exact IH.
Qed.

(** ** The block window of a new proposal *)

(** C9: every newly proposed withdrawal bundle is stored, as the last
    element of the store, with [blocksRemaining] equal to the full deadline
    window of 26299 blocks, which is [max(0, deadlineWindow - blocksElapsed)]
    at zero blocks elapsed. *)
Theorem proposal_starts_with_full_window (n : Z) (h : string) (s : BIP300Service) :
  exists b,
    last (withdrawalBundles (snd (createWithdrawalBundleProposal n h s))) = Some b /\
    withdrawalBundles (snd (createWithdrawalBundleProposal n h s))
      !! length (withdrawalBundles s) = Some b /\
    sidechainNumber b = n /\ bundleHash b = h /\
    blocksRemaining b = 26299 /\
    blocksRemaining b = spec_blocksRemaining 0.
Proof.
  rewrite proposal_runs. simpl. unfold push. exists (proposedBundle n h).
  split; [apply last_snoc|].
  split; [|repeat split].
  rewrite lookup_app_r by lia. now rewrite Nat.sub_diag.
Qed.

(** ** The queries *)

(** C10: the five queries [getSidechains], [getSidechain],
    [getWithdrawalBundles], [getWithdrawalBundlesForSidechain] and
    [getWithdrawalBundleState] leave the network, the sidechains and the
    withdrawal bundles of the service as they were, for every argument
    (found or not); and [getWithdrawalBundlesForSidechain] answers with
    exactly the stored bundles whose [sidechainNumber] is its argument, in
    the order of the store. *)
Theorem queries_leave_the_state (s : BIP300Service) (n : Z) (h : string) :
  snd (getSidechains s) = s /\
  snd (getSidechain n s) = s /\
  snd (getWithdrawalBundles s) = s /\
  snd (getWithdrawalBundlesForSidechain n s) = s /\
  snd (getWithdrawalBundleState h s) = s /\
  exists bundles,
    fst (getWithdrawalBundlesForSidechain n s) = Fulfilled (ok bundles) /\
    bundles = filter (fun b => sidechainNumber b = n) (withdrawalBundles s) /\
    (forall b, b ∈ bundles <-> b ∈ withdrawalBundles s /\ sidechainNumber b = n).
Proof.
  rewrite getSidechain_runs, getState_runs.
  repeat (split; [reflexivity|]).
  exists (filterArr (ofSidechain n) (withdrawalBundles s)).
  split; [reflexivity|].
  rewrite filterArr_filter. split; [reflexivity|].
  intros b. rewrite list_elem_of_filter. tauto.
Qed.

(** ** ACKs addressed to a hash that is not stored *)

(** C7: [simulateAckWithdrawalBundle] always fulfils its promise (nothing
    is thrown to the caller); the response is a success exactly when some
    stored bundle carries the hash, and when none does it is the failure
    whose message says that the bundle was not found, with the store
    untouched. *)
Theorem ack_of_unknown_bundle_is_an_error (h : string) (k : Z) (s : BIP300Service) :
  exists r,
    fst (simulateAckWithdrawalBundle h k s) = Fulfilled r /\
    (success r = true <-> exists b, b ∈ withdrawalBundles s /\ bundleHash b = h) /\
    ((forall b, b ∈ withdrawalBundles s -> bundleHash b <> h) ->
     r = failed ("Withdrawal bundle with hash " +:+ h +:+ " not found") /\
     snd (simulateAckWithdrawalBundle h k s) = s).
Proof.
  destruct (findIndex_cases (hasHash h) (withdrawalBundles s))
    as [[_ Hall] | (i & b & _ & Hfirst)].
  - rewrite (ack_unknown h k s Hall). simpl. eexists. split; [reflexivity|].
    rewrite Forall_forall in Hall. split; [split|].
    + discriminate.
    + intros (b & Hin & Hb). apply hasHash_true in Hb.
      rewrite (Hall b Hin) in Hb. discriminate.
    + auto.
  - rewrite (ack_known h k s i b Hfirst). simpl. eexists. split; [reflexivity|].
    destruct Hfirst as (Hi & Hp & _).
    assert (b ∈ withdrawalBundles s) as Hin by (apply list_elem_of_lookup; eauto).
    apply hasHash_true in Hp. split; [split|].
    + intros _. eauto.
    + reflexivity.
    + intros Hnone. now destruct (Hnone b Hin).
Qed.

(** ** The ACK threshold of the withdrawal transaction *)

(** C6: [createWithdrawalTransaction] succeeds only for a hash whose bundle
    (the stored bundle [find] selects for the hash) has a [workScore] of at
    least 13150; when that bundle's [workScore] is strictly below 13150 the
    response is a failure without a transaction id.  The store is not
    changed either way. *)
Theorem withdrawal_needs_the_threshold (h : string) (s : BIP300Service) :
  exists r,
    fst (createWithdrawalTransaction h s) = Fulfilled r /\
    snd (createWithdrawalTransaction h s) = s /\
    (success r = true <->
     exists b, find (hasHash h) (withdrawalBundles s) = Some b /\
               ackThreshold <= workScore b) /\
    (success r = true -> data r = Some mockWithdrawalTxid) /\
    (forall b, find (hasHash h) (withdrawalBundles s) = Some b ->
               workScore b < ackThreshold ->
               success r = false /\ data r = None /\ is_Some (error r)).
Proof.
  unfold ackThreshold.
  destruct (find (hasHash h) (withdrawalBundles s)) as [b|] eqn:Hf.
  - rewrite (withdrawal_known h s b Hf). simpl.
    destruct (Z.ltb_spec (workScore b) 13150) as [Hlt|Hge].
    + eexists. split; [reflexivity|]. split; [reflexivity|]. simpl.
      split; [split|split].
      * discriminate.
      * intros (b' & [= <-] & Hb'). lia.
      * discriminate.
      * intros b' [= <-] _. repeat split. eauto.
    + eexists. split; [reflexivity|]. split; [reflexivity|]. simpl.
      split; [split|split].
      * intros _. exists b. split; [reflexivity | lia].
      * reflexivity.
      * reflexivity.
      * intros b' [= <-] Hlt. lia.
  - rewrite (withdrawal_unknown h s Hf). simpl.
    eexists. split; [reflexivity|]. split; [reflexivity|]. simpl.
    split; [split|split].
    + discriminate.
    + intros (b' & Hb' & _). discriminate.
    + discriminate.
    + intros b' Hb'. discriminate.
Qed.

Example withdrawal_below_threshold :
  fst (createWithdrawalTransaction hash1 bip300Service)
  = Fulfilled (failed "Withdrawal bundle has not received enough ACKs (5000/13150)").
Proof. reflexivity. Qed.

Example withdrawal_at_threshold :
  fst (createWithdrawalTransaction hash1
         (run [CallSimulateAckWithdrawalBundle hash1 8150] bip300Service))
  = Fulfilled (ok mockWithdrawalTxid).
Proof. reflexivity. Qed.

(** ** What an ACK adds *)

(** C5, refuted as worded: an ACK of [hash1] with [ackCount] 5 succeeds and
    takes the work score of the bundle from 5000 to 5005, not to 5001. *)
Lemma ack_of_five_is_not_one : ~ spec_ack_increments_by_one bip300Service hash1 5.
Proof.
  intros H. destruct (H (ok true) eq_refl eq_refl) as (i & b & b' & Hi & Hh & Hi' & Hw & _).
  destruct i as [|[|[|i]]]; simpl in Hi, Hi'; try discriminate.
  - injection Hi as <-. injection Hi' as <-. simpl in Hw. lia.
  - injection Hi as <-. simpl in Hh. discriminate.
Qed.

(** C5, as the code has it: a successful [simulateAckWithdrawalBundle]
    adds its argument [ackCount] (whatever it is, and so 1 only when the
    caller passes 1) to the [workScore] of the first stored bundle that
    carries the hash; the other fields of that bundle, every other bundle
    and the length of the store stay as they were. *)
Theorem ack_adds_ackCount (h : string) (k : Z) (s : BIP300Service)
    (r : BlockchainResponse bool) :
  fst (simulateAckWithdrawalBundle h k s) = Fulfilled r ->
  success r = true ->
  exists i b,
    first_at (hasHash h) (withdrawalBundles s) i b /\
    withdrawalBundles (snd (simulateAckWithdrawalBundle h k s)) !! i
    = Some {| sidechainNumber := sidechainNumber b; bundleHash := bundleHash b;
              workScore := workScore b + k; blocksRemaining := blocksRemaining b |} /\
    (forall j, j <> i ->
       withdrawalBundles (snd (simulateAckWithdrawalBundle h k s)) !! j
       = withdrawalBundles s !! j) /\
    length (withdrawalBundles (snd (simulateAckWithdrawalBundle h k s)))
    = length (withdrawalBundles s) /\
    sidechains (snd (simulateAckWithdrawalBundle h k s)) = sidechains s.
Proof.
  destruct (findIndex_cases (hasHash h) (withdrawalBundles s))
    as [[_ Hall] | (i & b & _ & Hfirst)].
  - rewrite (ack_unknown h k s Hall). simpl. intros [= <-]. discriminate.
  - rewrite (ack_known h k s i b Hfirst). simpl. intros _ _.
    exists i, b. split; [exact Hfirst|].
    destruct Hfirst as (Hi & _ & _).
    split; [|split; [|split]].
    + apply list_lookup_insert_eq. eapply lookup_lt_Some; eauto.
    + intros j Hj. apply list_lookup_insert_ne. congruence.
    + apply length_insert.
    + reflexivity.
Qed.

Lemma ack_adds_ackCount_witness :
  exists i b,
    first_at (hasHash hash1) (withdrawalBundles bip300Service) i b /\
    withdrawalBundles (snd (simulateAckWithdrawalBundle hash1 5 bip300Service)) !! i
    = Some {| sidechainNumber := sidechainNumber b; bundleHash := bundleHash b;
              workScore := workScore b + 5; blocksRemaining := blocksRemaining b |} /\
    (forall j, j <> i ->
       withdrawalBundles (snd (simulateAckWithdrawalBundle hash1 5 bip300Service)) !! j
       = withdrawalBundles bip300Service !! j) /\
    length (withdrawalBundles (snd (simulateAckWithdrawalBundle hash1 5 bip300Service)))
    = length (withdrawalBundles bip300Service) /\
    sidechains (snd (simulateAckWithdrawalBundle hash1 5 bip300Service))
    = sidechains bip300Service.
Proof.
  apply (ack_adds_ackCount hash1 5 bip300Service (ok true)); reflexivity.
Defined.

(** ** Responses and exceptions *)

Lemma structured_ok {T} (d : T) : structured (ok d).
Proof. left. simpl. eauto. Qed.

Lemma structured_failed {T} (msg : string) : structured (@failed T msg).
Proof. right. simpl. eauto. Qed.

#[local] Hint Resolve @structured_ok @structured_failed : core.

(** C8, refuted as worded: the public method [setNetwork] returns [void],
    not a response with a success flag. *)
Lemma setNetwork_returns_no_response :
  ~ spec_structured_result (CallSetNetwork MAINNET) bip300Service.
Proof. intros (T & r & H & _). simpl in H. discriminate H. Qed.

(** C8, as the code has it: no public method throws to its caller or
    rejects its promise, for any argument and any state; every public
    method other than the setter [setNetwork] (which returns [void]) fulfils
    its promise with a structured response: a success with data and no
    error, or a failure with an error message and no data. *)
Theorem operations_return_structured_results (c : Call) (s : BIP300Service) :
  match fst (exec c s) with
  | Void => exists n, c = CallSetNetwork n
  | Thrown _ => False
  | Settled (Fulfilled r) => structured r
  | Settled (Rejected _) => False
  end.
Proof.
  destruct c as [n| |n| |n|n a f|n h|h k|h|h]; simpl.
  - eauto.
  - auto.
  - rewrite getSidechain_runs. simpl. destruct (find _ _); auto.
  - auto.
  - auto.
  - rewrite deposit_runs. simpl. destruct (find _ _); auto.
  - auto.
  - destruct (findIndex_cases (hasHash h) (withdrawalBundles s))
      as [[_ Hall] | (i & b & _ & Hfirst)].
    + rewrite (ack_unknown h k s Hall). simpl. auto.
    + rewrite (ack_known h k s i b Hfirst). simpl. auto.
  - destruct (find (hasHash h) (withdrawalBundles s)) as [b|] eqn:Hf.
    + rewrite (withdrawal_known h s b Hf). simpl.
      destruct (workScore b <? 13150); auto.
    + rewrite (withdrawal_unknown h s Hf). simpl. auto.
  - rewrite getState_runs. simpl. destruct (find _ _); auto.
Qed.

(** ** Proposals and the store *)

Lemma findIndex_push_found {A} (p : A -> bool) (l : list A) (x y : A) :
  y ∈ l -> p y = true -> findIndex p (push l x) = findIndex p l.
Proof.
  intros Hin Hy.
  destruct (findIndex_cases p l) as [[_ Hall] | (i & z & Hidx & Hfirst)].
  - rewrite Forall_forall in Hall. rewrite (Hall y Hin) in Hy. discriminate.
  - rewrite Hidx. unfold findIndex.
    rewrite (findIndexFrom_first p _ 0 i z (first_at_push p l i z x Hfirst)). lia.
Qed.

Lemma isScored_push_old (bs : list WithdrawalBundle) (x : WithdrawalBundle) (i : nat) :
  (i < length bs)%nat -> isScored (push bs x) i = isScored bs i.
Proof.
  intros Hlt. unfold isScored, push at 1. rewrite lookup_app_l by exact Hlt.
  destruct (bs !! i) as [b|] eqn:Hi; [|reflexivity].
  rewrite (findIndex_push_found _ bs x b); [reflexivity| |].
  - apply list_elem_of_lookup. eauto.
  - now apply hasHash_true.
Qed.

Lemma isScored_pushed_fresh (bs : list WithdrawalBundle) (n : Z) (h : string) :
  Forall (fun b => hasHash h b = false) bs ->
  isScored (push bs (proposedBundle n h)) (length bs) = true.
Proof.
  intros Hall.
  assert (first_at (hasHash h) (push bs (proposedBundle n h)) (length bs)
            (proposedBundle n h)) as Hfirst.
  { apply first_at_pushed; [exact Hall|]. now apply hasHash_true. }
  unfold isScored. destruct Hfirst as (Hi & Hrest). rewrite Hi. simpl.
  unfold findIndex.
  rewrite (findIndexFrom_first _ _ 0 (length bs) (proposedBundle n h)
             (conj Hi Hrest)).
  apply Z.eqb_eq. lia.
Qed.

Lemma scoredFor_push_fresh (bs : list WithdrawalBundle) (n : Z) (h : string) :
  Forall (fun b => hasHash h b = false) bs ->
  scoredFor n (push bs (proposedBundle n h)) = (scoredFor n bs ++ [length bs])%list.
Proof.
  intros Hall. unfold scoredFor.
  replace (length (push bs (proposedBundle n h))) with (S (length bs))
    by (unfold push; rewrite length_app; simpl; lia).
  rewrite seq_S, List.filter_app. simpl. f_equal.
  - apply filter_ext_in. intros i Hi. apply in_seq in Hi.
    rewrite isScored_push_old by lia.
    unfold push. rewrite lookup_app_l by lia. reflexivity.
  - rewrite (isScored_pushed_fresh bs n h Hall).
    unfold push. rewrite lookup_app_r by lia. rewrite Nat.sub_diag. simpl.
    unfold ofSidechain. simpl. now rewrite Z.eqb_refl.
Qed.

Lemma copies_push (bs : list WithdrawalBundle) (n : Z) (h : string) :
  copies n h (push bs (proposedBundle n h)) = S (copies n h bs).
Proof.
  unfold copies, push. rewrite List.filter_app, length_app. simpl.
  unfold ofSidechain, hasHash. simpl.
  rewrite Z.eqb_refl, String.eqb_refl. simpl. lia.
Qed.

(** C1, refuted as worded: on the constructed service, whose first bundle
    belongs to sidechain 0 and is being scored, a proposal for sidechain 0
    leaves that bundle scored and stores the new one with [workScore] 1. *)
Lemma proposal_does_not_supersede : ~ spec_supersession bip300Service 0 hash3.
Proof.
  intros H.
  destruct (H 0%nat _ eq_refl eq_refl eq_refl) as [Hstill _].
  vm_compute in Hstill. discriminate.
Qed.

(** C1, as the code has it: a proposal changes no stored bundle.  A bundle
    of the same sidechain that was being scored keeps its index, its fields
    and its standing (ACKs addressed to its hash still land on it); the new
    bundle is appended after it with [workScore] 1 and [blocksRemaining]
    26299, and the response is a success. *)
Theorem proposal_keeps_existing_bundles (n : Z) (h : string) (s : BIP300Service)
    (i : nat) (b : WithdrawalBundle) :
  withdrawalBundles s !! i = Some b ->
  sidechainNumber b = n ->
  isScored (withdrawalBundles s) i = true ->
  fst (createWithdrawalBundleProposal n h s) = Fulfilled (ok true) /\
  withdrawalBundles (snd (createWithdrawalBundleProposal n h s)) !! i = Some b /\
  isScored (withdrawalBundles (snd (createWithdrawalBundleProposal n h s))) i = true /\
  withdrawalBundles (snd (createWithdrawalBundleProposal n h s))
    !! length (withdrawalBundles s)
  = Some {| sidechainNumber := n; bundleHash := h;
            workScore := 1; blocksRemaining := 26299 |} /\
  length (withdrawalBundles (snd (createWithdrawalBundleProposal n h s)))
  = S (length (withdrawalBundles s)).
Proof.
  intros Hi _ Hscored. rewrite proposal_runs. simpl.
  assert (i < length (withdrawalBundles s))%nat as Hlt
    by (eapply lookup_lt_Some; eauto).
  split; [reflexivity|]. split; [|split; [|split]].
  - unfold push. rewrite lookup_app_l by exact Hlt. exact Hi.
  - rewrite isScored_push_old by exact Hlt. exact Hscored.
  - unfold push. rewrite lookup_app_r by lia. now rewrite Nat.sub_diag.
  - unfold push. rewrite length_app. simpl. lia.
Qed.

Lemma proposal_keeps_existing_bundles_witness :
  fst (createWithdrawalBundleProposal 0 hash3 bip300Service) = Fulfilled (ok true) /\
  withdrawalBundles (snd (createWithdrawalBundleProposal 0 hash3 bip300Service)) !! 0%nat
  = Some {| sidechainNumber := 0; bundleHash := hash1;
            workScore := 5000; blocksRemaining := 10000 |} /\
  isScored (withdrawalBundles (snd (createWithdrawalBundleProposal 0 hash3 bip300Service)))
    0 = true /\
  withdrawalBundles (snd (createWithdrawalBundleProposal 0 hash3 bip300Service))
    !! length (withdrawalBundles bip300Service)
  = Some {| sidechainNumber := 0; bundleHash := hash3;
            workScore := 1; blocksRemaining := 26299 |} /\
  length (withdrawalBundles (snd (createWithdrawalBundleProposal 0 hash3 bip300Service)))
  = S (length (withdrawalBundles bip300Service)).
Proof.
  apply (proposal_keeps_existing_bundles 0 hash3 bip300Service 0); reflexivity.
Defined.

(** C2, refuted as worded: after one proposal for sidechain 0 on the
    constructed service, a reachable state, two bundles of sidechain 0 are
    being scored. *)
Lemma two_scored_bundles_for_a_sidechain :
  reachable (run [CallCreateWithdrawalBundleProposal 0 hash3] bip300Service) /\
  ~ spec_single_active (run [CallCreateWithdrawalBundleProposal 0 hash3] bip300Service).
Proof.
  split.
  - exact (reachable_call (CallCreateWithdrawalBundleProposal 0 hash3) _ reachable_new).
  - intros H. specialize (H 0). vm_compute in H. lia.
Qed.

(** C2, as the code has it: the store keeps no bundle state and resolves no
    competition.  A proposal whose hash is not stored yet adds one bundle
    being scored to its sidechain and keeps every bundle that was being
    scored: the number of bundles of a sidechain scored at the same time
    grows by one with each such proposal, so it is not bounded by one. *)
Theorem proposal_adds_a_scored_bundle (n : Z) (h : string) (s : BIP300Service) :
  (forall b, b ∈ withdrawalBundles s -> bundleHash b <> h) ->
  scoredFor n (withdrawalBundles (snd (createWithdrawalBundleProposal n h s)))
  = (scoredFor n (withdrawalBundles s) ++ [length (withdrawalBundles s)])%list /\
  length (scoredFor n (withdrawalBundles (snd (createWithdrawalBundleProposal n h s))))
  = S (length (scoredFor n (withdrawalBundles s))).
Proof.
  intros Hfresh.
  assert (Forall (fun b => hasHash h b = false) (withdrawalBundles s)) as Hall.
  { apply Forall_forall. intros b Hb. apply hasHash_false. auto. }
  rewrite proposal_runs. simpl.
  rewrite (scoredFor_push_fresh _ n h Hall). split; [reflexivity|].
  rewrite length_app. simpl. lia.
Qed.

Lemma fresh_hash3 (b : WithdrawalBundle) :
  b ∈ withdrawalBundles bip300Service -> bundleHash b <> hash3.
Proof.
  intros Hb. apply list_elem_of_In in Hb. simpl in Hb.
  destruct Hb as [<-|[<-|[]]]; discriminate.
Defined.

Lemma proposal_adds_a_scored_bundle_witness :
  scoredFor 0 (withdrawalBundles
                 (snd (createWithdrawalBundleProposal 0 hash3 bip300Service)))
  = (scoredFor 0 (withdrawalBundles bip300Service)
     ++ [length (withdrawalBundles bip300Service)])%list /\
  length (scoredFor 0 (withdrawalBundles
                         (snd (createWithdrawalBundleProposal 0 hash3 bip300Service))))
  = S (length (scoredFor 0 (withdrawalBundles bip300Service))).
Proof.
  apply (proposal_adds_a_scored_bundle 0 hash3 bip300Service). exact fresh_hash3.
Defined.

(** ** Proposals and the sidechain registry *)

(** C3, refuted as worded: no sidechain of the constructed service has
    escrow number 7, yet a proposal for sidechain 7 succeeds. *)
Lemma proposal_for_unregistered_sidechain_succeeds :
  ~ spec_unknown_sidechain bip300Service 7 hash3.
Proof.
  intros H. destruct (H I) as (r & Hr & Hfail & _).
  injection Hr as <-. discriminate Hfail.
Qed.

(** C3, as the code has it: [createWithdrawalBundleProposal] reads neither
    the sidechain list nor [isActive].  For a sidechain number that is not
    registered, or whose sidechain is inactive, the promise is fulfilled
    with a success carrying [true] and no error, the bundle is appended to
    the store, and the sidechain list stays as it was. *)
Theorem proposal_ignores_the_registry (n : Z) (h : string) (s : BIP300Service) :
  unknownSidechain s n ->
  exists r,
    fst (createWithdrawalBundleProposal n h s) = Fulfilled r /\
    success r = true /\ data r = Some true /\ error r = None /\
    withdrawalBundles (snd (createWithdrawalBundleProposal n h s))
    = (withdrawalBundles s ++ [proposedBundle n h])%list /\
    sidechains (snd (createWithdrawalBundleProposal n h s)) = sidechains s.
Proof.
  intros _. rewrite proposal_runs. simpl.
  exists (ok true). repeat split.
Qed.

Lemma proposal_ignores_the_registry_witness :
  (exists r,
     fst (createWithdrawalBundleProposal 7 hash3 bip300Service) = Fulfilled r /\
     success r = true /\ data r = Some true /\ error r = None /\
     withdrawalBundles (snd (createWithdrawalBundleProposal 7 hash3 bip300Service))
     = (withdrawalBundles bip300Service ++ [proposedBundle 7 hash3])%list /\
     sidechains (snd (createWithdrawalBundleProposal 7 hash3 bip300Service))
     = sidechains bip300Service) /\
  (exists r,
     fst (createWithdrawalBundleProposal 5 hash3 inactiveSample) = Fulfilled r /\
     success r = true /\ data r = Some true /\ error r = None /\
     withdrawalBundles (snd (createWithdrawalBundleProposal 5 hash3 inactiveSample))
     = (withdrawalBundles inactiveSample ++ [proposedBundle 5 hash3])%list /\
     sidechains (snd (createWithdrawalBundleProposal 5 hash3 inactiveSample))
     = sidechains inactiveSample).
Proof.
  split.
  - apply (proposal_ignores_the_registry 7 hash3 bip300Service). exact I.
  - apply (proposal_ignores_the_registry 5 hash3 inactiveSample). reflexivity.
Defined.

(** ** Proposals and stored hashes *)

(** C4, refuted as worded: [hash1] is stored for sidechain 0 in the
    constructed service, yet a proposal of [hash1] for sidechain 0 succeeds
    and the store then holds the hash twice for that sidechain. *)
Lemma duplicate_proposal_succeeds : ~ spec_duplicate_bundle bip300Service 0 hash1.
Proof.
  intros H.
  assert (0 < copies 0 hash1 (withdrawalBundles bip300Service))%nat as Hstored
    by (vm_compute; lia).
  destruct (H Hstored) as (r & Hr & Hfail & _).
  injection Hr as <-. discriminate Hfail.
Qed.

(** C4, as the code has it: [createWithdrawalBundleProposal] does not look
    for the hash in the store.  When the hash is already stored for the
    sidechain the proposal still succeeds and appends one more bundle with
    that sidechain number and hash, so the store then holds at least two. *)
Theorem proposal_accepts_a_stored_hash (n : Z) (h : string) (s : BIP300Service) :
  (0 < copies n h (withdrawalBundles s))%nat ->
  fst (createWithdrawalBundleProposal n h s) = Fulfilled (ok true) /\
  copies n h (withdrawalBundles (snd (createWithdrawalBundleProposal n h s)))
  = S (copies n h (withdrawalBundles s)) /\
  (2 <= copies n h (withdrawalBundles (snd (createWithdrawalBundleProposal n h s))))%nat.
Proof.
  intros Hstored. rewrite proposal_runs. simpl.
  rewrite copies_push. split; [reflexivity|]. split; [reflexivity | lia].
Qed.

Lemma proposal_accepts_a_stored_hash_witness :
  fst (createWithdrawalBundleProposal 0 hash1 bip300Service) = Fulfilled (ok true) /\
  copies 0 hash1
    (withdrawalBundles (snd (createWithdrawalBundleProposal 0 hash1 bip300Service)))
  = S (copies 0 hash1 (withdrawalBundles bip300Service)) /\
  (2 <= copies 0 hash1
          (withdrawalBundles (snd (createWithdrawalBundleProposal 0 hash1 bip300Service))))%nat.
Proof.
  apply (proposal_accepts_a_stored_hash 0 hash1 bip300Service).
  vm_compute. lia.
Defined.

(** * Further properties of the service *)

(** ** More on the array operations *)

Lemma find_push_found {A} (p : A -> bool) (l : list A) (x y : A) :
  find p l = Some x -> find p (push l y) = Some x.
Proof.
  unfold push. induction l as [|z l IH]; simpl; [discriminate|].
  destruct (p z); [trivial | exact IH].
Qed.

Lemma find_push_fresh {A} (p : A -> bool) (l : list A) (y : A) :
  find p l = None -> find p (push l y) = if p y then Some y else None.
Proof.
  unfold push. induction l as [|z l IH]; simpl; [reflexivity|].
  destruct (p z); [discriminate | exact IH].
Qed.

Lemma find_In {A} (p : A -> bool) (l : list A) (x : A) :
  find p l = Some x -> x ∈ l /\ p x = true.
Proof.
  intros Hf. destruct (find_first p l x Hf) as (i & Hi & Hp & _).
  split; [|exact Hp]. apply list_elem_of_lookup. eauto.
Qed.

Lemma find_is_Some {A} (p : A -> bool) (l : list A) :
  is_Some (find p l) <-> exists x, x ∈ l /\ p x = true.
Proof.
  split.
  - intros [x Hx]. exists x. now apply find_In.
  - intros (x & Hin & Hp). destruct (find p l) as [y|] eqn:Hf; [eauto|].
    pose proof (find_None p l Hf) as Hall. rewrite Forall_forall in Hall.
    rewrite (Hall x Hin) in Hp. discriminate.
Qed.

(** Replacing an element by one the callback judges alike keeps the first
    accepted element where it is. *)
Lemma first_at_insert {A} (p : A -> bool) (l : list A) (i j : nat) (x x' b : A) :
  first_at p l j b -> l !! i = Some x -> p x' = p x ->
  first_at p (<[i:=x']> l) j (if decide (i = j) then x' else b).
Proof.
  intros (Hj & Hp & Hlt) Hi Hsame.
  assert (j < length l)%nat as Hlen by (eapply lookup_lt_Some; eauto).
  repeat split.
  - destruct (decide (i = j)) as [->|Hne].
    + now apply list_lookup_insert_eq.
    + rewrite list_lookup_insert_ne by exact Hne. exact Hj.
  - destruct (decide (i = j)) as [->|Hne]; [|exact Hp].
    rewrite Hsame. congruence.
  - intros k y Hk Hy. destruct (decide (i = k)) as [->|Hne].
    + rewrite list_lookup_insert_eq in Hy by (eapply lookup_lt_Some; eauto).
      injection Hy as <-. rewrite Hsame. eauto.
    + rewrite list_lookup_insert_ne in Hy by exact Hne. eauto.
Qed.

Lemma hasHash_set_workScore (h : string) (w : Z) (b : WithdrawalBundle) :
  hasHash h (set_workScore w b) = hasHash h b.
Proof. reflexivity. Qed.

Lemma set_withdrawalBundles_id (s : BIP300Service) :
  set_withdrawalBundles (withdrawalBundles s) s = s.
Proof. now destruct s. Qed.

(** ** The sidechain registry *)

Lemma reachable_sidechains (s : BIP300Service) :
  reachable s -> sidechains s = mockSidechains.
Proof.
  intros Hr. induction Hr as [|c s Hr IH]; [reflexivity|].
  rewrite <- IH. destruct c as [n| |n| |n|n a f|n h|h k|h|h]; simpl;
    try reflexivity.
  - now rewrite getSidechain_runs.
  - now rewrite deposit_runs.
  - destruct (findIndex_cases (hasHash h) (withdrawalBundles s))
      as [[_ Hall] | (i & b & _ & Hfirst)].
    + now rewrite (ack_unknown h k s Hall).
    + now rewrite (ack_known h k s i b Hfirst).
  - destruct (find (hasHash h) (withdrawalBundles s)) as [b|] eqn:Hf.
    + now rewrite (withdrawal_known h s b Hf).
    + now rewrite (withdrawal_unknown h s Hf).
  - now rewrite getState_runs.
Qed.

(** X1: no sequence of public calls changes the sidechain list: in every
    state the singleton reaches it is the list of the four mock sidechains,
    and [getSidechains] answers with it. *)
Theorem sidechains_never_change (s : BIP300Service) :
  reachable s ->
  sidechains s = mockSidechains /\
  fst (getSidechains s) = Fulfilled (ok mockSidechains).
Proof.
  intros Hr. pose proof (reachable_sidechains s Hr) as Hs.
  split; [exact Hs|]. unfold getSidechains. run_method. now rewrite Hs.
Qed.

Lemma sidechains_never_change_witness :
  sidechains (run [CallSimulateAckWithdrawalBundle hash1 5;
                   CallCreateWithdrawalBundleProposal 7 hash3;
                   CallSetNetwork MAINNET] bip300Service) = mockSidechains /\
  fst (getSidechains (run [CallSimulateAckWithdrawalBundle hash1 5;
                           CallCreateWithdrawalBundleProposal 7 hash3;
                           CallSetNetwork MAINNET] bip300Service))
  = Fulfilled (ok mockSidechains).
Proof.
  apply sidechains_never_change.
  apply (reachable_call (CallSetNetwork MAINNET)).
  apply (reachable_call (CallCreateWithdrawalBundleProposal 7 hash3)).
  apply (reachable_call (CallSimulateAckWithdrawalBundle hash1 5)).
  exact reachable_new.
Defined.

(** X2: [getSidechain] is a sound and complete lookup by escrow number.  It
    succeeds exactly when some stored sidechain has the number; the
    sidechain it answers with is stored, has that number, and is the first
    such in the list; otherwise the failure names the number asked for. *)
Theorem getSidechain_finds_by_number (n : Z) (s : BIP300Service) :
  exists r,
    fst (getSidechain n s) = Fulfilled r /\
    (success r = true <-> exists sc, sc ∈ sidechains s /\ escrowNumber sc = n) /\
    (forall sc, data r = Some sc ->
       exists i, sidechains s !! i = Some sc /\ escrowNumber sc = n /\
                 forall j sc', (j < i)%nat -> sidechains s !! j = Some sc' ->
                               escrowNumber sc' <> n) /\
    (success r = false ->
     error r = Some ("Sidechain with escrow number " +:+ numToString n +:+ " not found")).
Proof.
  rewrite getSidechain_runs. simpl.
  destruct (find (hasEscrowNumber n) (sidechains s)) as [sc|] eqn:Hf.
  - exists (ok sc). split; [reflexivity|]. simpl.
    destruct (find_first _ _ _ Hf) as (i & Hi & Hp & Hlt).
    apply Z.eqb_eq in Hp.
    split; [|split].
    + split; [|reflexivity]. intros _. exists sc. split; [|exact Hp].
      apply list_elem_of_lookup. eauto.
    + intros sc' [= <-]. exists i. repeat split; auto.
      intros j sc' Hj Hsc'. apply Z.eqb_neq. exact (Hlt j sc' Hj Hsc').
    + discriminate.
  - eexists. split; [reflexivity|]. simpl.
    pose proof (find_None _ _ Hf) as Hall. rewrite Forall_forall in Hall.
    split; [|split].
    + split; [discriminate|]. intros (sc & Hin & Hsc).
      specialize (Hall sc Hin). unfold hasEscrowNumber in Hall.
      apply Z.eqb_neq in Hall. contradiction.
    + discriminate.
    + reflexivity.
Qed.

(** ** Deposits *)

(** X3: [createDepositTransaction] succeeds exactly when the sidechain
    number is registered, whatever [isActive], the amount and the fee rate
    are; it then answers with the mock transaction id.  Otherwise it hands
    on the response of [getSidechain], error message included.  The state
    is not changed. *)
Theorem deposit_needs_a_registered_sidechain (n amount feeRate : Z) (s : BIP300Service) :
  exists r,
    fst (createDepositTransaction n amount feeRate s) = Fulfilled r /\
    snd (createDepositTransaction n amount feeRate s) = s /\
    (success r = true <-> exists sc, sc ∈ sidechains s /\ escrowNumber sc = n) /\
    (success r = true -> data r = Some mockDepositTxid) /\
    success r = succeeds (fst (getSidechain n s)) /\
    (success r = false ->
     data r = None /\
     error r = Some ("Sidechain with escrow number " +:+ numToString n +:+ " not found")).
Proof.
  rewrite deposit_runs, getSidechain_runs. simpl.
  destruct (find (hasEscrowNumber n) (sidechains s)) as [sc|] eqn:Hf.
  - exists (ok mockDepositTxid). split; [reflexivity|]. split; [reflexivity|]. simpl.
    destruct (find_In _ _ _ Hf) as [Hin Hp]. apply Z.eqb_eq in Hp.
    repeat split; eauto; discriminate.
  - eexists. split; [reflexivity|]. split; [reflexivity|]. simpl.
    pose proof (find_None _ _ Hf) as Hall. rewrite Forall_forall in Hall.
    repeat split; try discriminate.
    intros (sc & Hin & Hsc). specialize (Hall sc Hin).
    unfold hasEscrowNumber in Hall. apply Z.eqb_neq in Hall. contradiction.
Qed.

Lemma deposit_success (n amount feeRate : Z) (s : BIP300Service) :
  succeeds (fst (createDepositTransaction n amount feeRate s)) = true
  <-> exists sc, sc ∈ sidechains s /\ escrowNumber sc = n.
Proof.
  rewrite deposit_runs. simpl.
  destruct (find (hasEscrowNumber n) (sidechains s)) as [sc|] eqn:Hf; simpl.
  - destruct (find_In _ _ _ Hf) as [Hin Hp]. apply Z.eqb_eq in Hp.
    split; eauto.
  - pose proof (find_None _ _ Hf) as Hall. rewrite Forall_forall in Hall.
    split; [discriminate|]. intros (sc & Hin & Hsc). specialize (Hall sc Hin).
    unfold hasEscrowNumber in Hall. apply Z.eqb_neq in Hall. contradiction.
Qed.

(** X4: on the singleton, in any state it reaches, a deposit succeeds
    exactly for the sidechain numbers 0, 1, 2 and 3. *)
Theorem deposit_succeeds_for_the_four_sidechains (n amount feeRate : Z)
    (s : BIP300Service) :
  reachable s ->
  succeeds (fst (createDepositTransaction n amount feeRate s)) = true <-> 0 <= n <= 3.
Proof.
  intros Hr. rewrite deposit_success, (reachable_sidechains s Hr). split.
  - intros (sc & Hin & <-). apply list_elem_of_In in Hin. simpl in Hin.
    destruct Hin as [<-|[<-|[<-|[<-|[]]]]]; simpl; lia.
  - intros Hn.
    assert (exists i : nat, (i < 4)%nat /\ n = Z.of_nat i) as (i & Hi & ->)
      by (exists (Z.to_nat n); lia).
    assert (is_Some (mockSidechains !! i)) as [sc Hsc]
      by (apply lookup_lt_is_Some; simpl; lia).
    exists sc. split; [apply list_elem_of_lookup; eauto|].
    destruct i as [|[|[|[|i]]]]; [| | | |lia]; injection Hsc as <-; reflexivity.
Qed.

Lemma deposit_succeeds_for_the_four_sidechains_witness :
  succeeds (fst (createDepositTransaction 2 100 1
                   (run [CallCreateWithdrawalBundleProposal 7 hash3] bip300Service)))
  = true <-> 0 <= 2 <= 3.
Proof.
  apply deposit_succeeds_for_the_four_sidechains.
  apply (reachable_call (CallCreateWithdrawalBundleProposal 7 hash3)).
  exact reachable_new.
Defined.

(** ** Proposals seen through the queries *)

(** X5: after a proposal of hash [h], [getWithdrawalBundleState h] answers
    with the oldest stored bundle carrying [h]: the proposed bundle when the
    hash was not stored before, and otherwise the bundle that already
    carried it (the new one is then out of reach of the query).  For any
    other hash the answer is what it was before the proposal. *)
Theorem state_query_after_proposal (n : Z) (h h' : string) (s : BIP300Service) :
  fst (getWithdrawalBundleState h (snd (createWithdrawalBundleProposal n h s)))
  = Fulfilled (ok match find (hasHash h) (withdrawalBundles s) with
                  | Some b => b
                  | None => {| sidechainNumber := n; bundleHash := h;
                               workScore := 1; blocksRemaining := 26299 |}
                  end) /\
  (h' <> h ->
   fst (getWithdrawalBundleState h' (snd (createWithdrawalBundleProposal n h s)))
   = fst (getWithdrawalBundleState h' s)).
Proof.
  rewrite proposal_runs, !getState_runs. simpl. split.
  - destruct (find (hasHash h) (withdrawalBundles s)) as [b|] eqn:Hf.
    + now rewrite (find_push_found _ _ b _ Hf).
    + rewrite (find_push_fresh _ _ _ Hf).
      unfold hasHash at 1. simpl. now rewrite String.eqb_refl.
  - intros Hne.
    destruct (find (hasHash h') (withdrawalBundles s)) as [b|] eqn:Hf.
    + now rewrite (find_push_found _ _ b _ Hf).
    + rewrite (find_push_fresh _ _ _ Hf).
      unfold hasHash at 1. simpl.
      destruct (String.eqb_spec h h') as [Heq|_]; [congruence | reflexivity].
Qed.

(** X6: after a proposal for sidechain [n],
    [getWithdrawalBundlesForSidechain] answers for [n] with its earlier
    answer followed by the proposed bundle, and for any other sidechain
    number with its earlier answer. *)
Theorem sidechain_query_after_proposal (n m : Z) (h : string) (s : BIP300Service)
    (before : list WithdrawalBundle) :
  fst (getWithdrawalBundlesForSidechain m s) = Fulfilled (ok before) ->
  fst (getWithdrawalBundlesForSidechain m
         (snd (createWithdrawalBundleProposal n h s)))
  = Fulfilled (ok (if decide (m = n)
                   then (before ++ [{| sidechainNumber := n; bundleHash := h;
                                       workScore := 1; blocksRemaining := 26299 |}])%list
                   else before)).
Proof.
  rewrite proposal_runs. unfold getWithdrawalBundlesForSidechain. run_method.
  intros [= <-]. unfold filterArr, push. rewrite List.filter_app. simpl.
  destruct (decide (m = n)) as [->|Hne].
  - now rewrite Z.eqb_refl.
  - destruct (Z.eqb_spec n m) as [Heq|_]; [congruence|].
    now rewrite app_nil_r.
Qed.

Lemma sidechain_query_after_proposal_witness :
  fst (getWithdrawalBundlesForSidechain 0
         (snd (createWithdrawalBundleProposal 0 hash3 bip300Service)))
  = Fulfilled (ok (if decide (0 = 0)
                   then ([{| sidechainNumber := 0; bundleHash := hash1;
                             workScore := 5000; blocksRemaining := 10000 |}]
                         ++ [{| sidechainNumber := 0; bundleHash := hash3;
                                workScore := 1; blocksRemaining := 26299 |}])%list
                   else [{| sidechainNumber := 0; bundleHash := hash1;
                            workScore := 5000; blocksRemaining := 10000 |}])).
Proof.
  apply (sidechain_query_after_proposal 0 0 hash3 bip300Service). reflexivity.
Defined.

(** ** ACKs seen through the queries and composed *)

Lemma find_first_at_hash (h : string) (bs : list WithdrawalBundle) (b : WithdrawalBundle) :
  find (hasHash h) bs = Some b <-> exists i, first_at (hasHash h) bs i b.
Proof.
  split; [apply find_first|]. intros [i Hi]. exact (first_at_find _ _ _ _ Hi).
Qed.

(** The store after an ACK that found its bundle still has the raised
    bundle as the first one carrying the hash. *)
Lemma first_at_after_ack (h h' : string) (k : Z) (bs : list WithdrawalBundle)
    (i j : nat) (b b' : WithdrawalBundle) :
  first_at (hasHash h) bs i b ->
  first_at (hasHash h') bs j b' ->
  first_at (hasHash h') (<[i := set_workScore (workScore b + k) b]> bs) j
    (if decide (i = j) then set_workScore (workScore b + k) b else b').
Proof.
  intros (Hi & _ & _) Hj.
  exact (first_at_insert (hasHash h') bs i j b _ b' Hj Hi
           (hasHash_set_workScore h' _ b)).
Qed.

(** X7: when [getWithdrawalBundleState h] answers with a bundle, an ACK of
    [h] succeeds and the state query then answers with the same bundle, its
    [workScore] raised by [ackCount] and its other fields as before. *)
Theorem state_query_after_ack (h : string) (k : Z) (s : BIP300Service)
    (b : WithdrawalBundle) :
  fst (getWithdrawalBundleState h s) = Fulfilled (ok b) ->
  fst (simulateAckWithdrawalBundle h k s) = Fulfilled (ok true) /\
  fst (getWithdrawalBundleState h (snd (simulateAckWithdrawalBundle h k s)))
  = Fulfilled (ok {| sidechainNumber := sidechainNumber b; bundleHash := bundleHash b;
                     workScore := workScore b + k;
                     blocksRemaining := blocksRemaining b |}).
Proof.
  rewrite getState_runs. simpl.
  destruct (find (hasHash h) (withdrawalBundles s)) as [b0|] eqn:Hf; [|discriminate].
  intros [= ->].
  destruct (find_first _ _ _ Hf) as [i Hfirst].
  rewrite (ack_known h k s i b Hfirst). simpl. split; [reflexivity|].
  rewrite getState_runs. simpl.
  pose proof (first_at_after_ack h h k _ i i b b Hfirst Hfirst) as Hafter.
  destruct (decide (i = i)) as [_|Hne]; [|congruence].
  now rewrite (first_at_find _ _ _ _ Hafter).
Qed.

Lemma state_query_after_ack_witness :
  fst (simulateAckWithdrawalBundle hash2 150 bip300Service) = Fulfilled (ok true) /\
  fst (getWithdrawalBundleState hash2
         (snd (simulateAckWithdrawalBundle hash2 150 bip300Service)))
  = Fulfilled (ok {| sidechainNumber := 2; bundleHash := hash2;
                     workScore := 8000 + 150; blocksRemaining := 8000 |}).
Proof.
  apply (state_query_after_ack hash2 150 bip300Service
           {| sidechainNumber := 2; bundleHash := hash2;
              workScore := 8000; blocksRemaining := 8000 |}).
  reflexivity.
Defined.

(** X8: the withdrawal transaction of a hash whose bundle has work score
    [w] can be created after one ACK of that hash with count [k] exactly
    when [w + k] is at least 13150: the count of a single call is not
    bounded, and a negative one can take a bundle back below the
    threshold. *)
Theorem withdrawal_after_ack (h : string) (k : Z) (s : BIP300Service)
    (b : WithdrawalBundle) :
  find (hasHash h) (withdrawalBundles s) = Some b ->
  succeeds (fst (createWithdrawalTransaction h (snd (simulateAckWithdrawalBundle h k s))))
  = (13150 <=? workScore b + k).
Proof.
  intros Hf. destruct (find_first _ _ _ Hf) as [i Hfirst].
  rewrite (ack_known h k s i b Hfirst). simpl.
  pose proof (first_at_after_ack h h k _ i i b b Hfirst Hfirst) as Hafter.
  destruct (decide (i = i)) as [_|Hne]; [|congruence].
  rewrite (withdrawal_known h (set_withdrawalBundles _ s) _
             (first_at_find _ _ _ _ Hafter)). simpl.
  destruct (Z.ltb_spec (workScore b + k) 13150), (Z.leb_spec 13150 (workScore b + k));
    try lia; reflexivity.
Qed.

Lemma withdrawal_after_ack_witness :
  succeeds (fst (createWithdrawalTransaction hash1
                   (snd (simulateAckWithdrawalBundle hash1 8150 bip300Service))))
  = (13150 <=? workScore {| sidechainNumber := 0; bundleHash := hash1;
                            workScore := 5000; blocksRemaining := 10000 |} + 8150).
Proof.
  apply (withdrawal_after_ack hash1 8150 bip300Service). reflexivity.
Defined.

(** X9: ACKs of one hash add up: two ACKs with counts [k1] and [k2] leave
    the service in the state one ACK with count [k1 + k2] leaves it in, and
    an ACK with count 0 leaves the state as it was. *)
Theorem acks_add_up (h : string) (k1 k2 : Z) (s : BIP300Service) :
  snd (simulateAckWithdrawalBundle h k2 (snd (simulateAckWithdrawalBundle h k1 s)))
  = snd (simulateAckWithdrawalBundle h (k1 + k2) s) /\
  snd (simulateAckWithdrawalBundle h 0 s) = s.
Proof.
  destruct (findIndex_cases (hasHash h) (withdrawalBundles s))
    as [[_ Hall] | (i & b & _ & Hfirst)].
  - rewrite (ack_unknown h k1 s Hall). simpl.
    rewrite (ack_unknown h k2 s Hall), (ack_unknown h (k1 + k2) s Hall),
      (ack_unknown h 0 s Hall).
    split; reflexivity.
  - rewrite (ack_known h k1 s i b Hfirst), (ack_known h (k1 + k2) s i b Hfirst),
      (ack_known h 0 s i b Hfirst). simpl.
    pose proof (first_at_after_ack h h k1 _ i i b b Hfirst Hfirst) as Hafter.
    destruct (decide (i = i)) as [_|Hne]; [|congruence].
    split.
    + rewrite (ack_known h k2 (set_withdrawalBundles _ s) i _ Hafter). simpl.
      rewrite list_insert_insert_eq. unfold set_workScore, set_withdrawalBundles.
      simpl. now rewrite Z.add_assoc.
    + destruct Hfirst as (Hi & _ & _).
      rewrite list_insert_id; [apply set_withdrawalBundles_id|].
      rewrite Hi. destruct b. unfold set_workScore. simpl. now rewrite Z.add_0_r.
Qed.

(** X10: ACKs commute: two ACKs, of the same hash or of different ones,
    leave the service in the same state in either order. *)
Theorem acks_commute (h1 h2 : string) (k1 k2 : Z) (s : BIP300Service) :
  snd (simulateAckWithdrawalBundle h1 k1 (snd (simulateAckWithdrawalBundle h2 k2 s)))
  = snd (simulateAckWithdrawalBundle h2 k2 (snd (simulateAckWithdrawalBundle h1 k1 s))).
Proof.
  assert (forall h h' k i b,
             Forall (fun x => hasHash h x = false) (withdrawalBundles s) ->
             first_at (hasHash h') (withdrawalBundles s) i b ->
             Forall (fun x => hasHash h x = false)
               (<[i := set_workScore (workScore b + k) b]> (withdrawalBundles s)))
    as Hstill.
  { intros h h' k i b Hall (Hi & _ & _). apply Forall_insert; [exact Hall|].
    rewrite hasHash_set_workScore. rewrite Forall_forall in Hall.
    apply Hall, list_elem_of_lookup. eauto. }
  destruct (findIndex_cases (hasHash h1) (withdrawalBundles s))
    as [[_ Hall1] | (i1 & b1 & _ & Hfirst1)];
  destruct (findIndex_cases (hasHash h2) (withdrawalBundles s))
    as [[_ Hall2] | (i2 & b2 & _ & Hfirst2)].
  - rewrite (ack_unknown h2 k2 s Hall2), (ack_unknown h1 k1 s Hall1). simpl.
    now rewrite (ack_unknown h2 k2 s Hall2), (ack_unknown h1 k1 s Hall1).
  - rewrite (ack_known h2 k2 s i2 b2 Hfirst2), (ack_unknown h1 k1 s Hall1). simpl.
    rewrite (ack_known h2 k2 s i2 b2 Hfirst2). simpl.
    rewrite ack_unknown; [reflexivity|]. simpl. eauto.
  - rewrite (ack_known h1 k1 s i1 b1 Hfirst1), (ack_unknown h2 k2 s Hall2). simpl.
    rewrite (ack_known h1 k1 s i1 b1 Hfirst1). simpl.
    rewrite ack_unknown; [reflexivity|]. simpl. eauto.
  - rewrite (ack_known h1 k1 s i1 b1 Hfirst1), (ack_known h2 k2 s i2 b2 Hfirst2). simpl.
    pose proof (first_at_after_ack h2 h1 k2 _ i2 i1 b2 b1 Hfirst2 Hfirst1) as H1.
    pose proof (first_at_after_ack h1 h2 k1 _ i1 i2 b1 b2 Hfirst1 Hfirst2) as H2.
    rewrite (ack_known h1 k1 (set_withdrawalBundles _ s) i1 _ H1),
      (ack_known h2 k2 (set_withdrawalBundles _ s) i2 _ H2). simpl.
    unfold set_withdrawalBundles. simpl. f_equal.
    destruct (decide (i2 = i1)) as [->|Hne].
    + destruct (decide (i1 = i1)) as [_|Hne]; [|congruence].
      assert (b2 = b1) as ->.
      { destruct Hfirst1 as (Ha & _), Hfirst2 as (Hb & _). congruence. }
      rewrite !list_insert_insert_eq. unfold set_workScore. simpl.
      do 2 f_equal. lia.
    + destruct (decide (i1 = i2)) as [Heq|_]; [congruence|].
      apply list_insert_insert_ne. congruence.
Qed.

(** ** What no call does to the store *)

Lemma bundleKey_set_workScore (w : Z) (b : WithdrawalBundle) :
  bundleKey (set_workScore w b) = bundleKey b.
Proof. reflexivity. Qed.

Lemma call_keys (c : Call) (s : BIP300Service) :
  bundleKey <$> withdrawalBundles (snd (exec c s))
  = ((bundleKey <$> withdrawalBundles s) ++ proposalKeys [c])%list.
Proof.
  destruct c as [n| |n| |n|n a f|n h|h k|h|h]; simpl;
    try (now rewrite app_nil_r).
  - rewrite getSidechain_runs. simpl. now rewrite app_nil_r.
  - rewrite deposit_runs. simpl. now rewrite app_nil_r.
  - unfold push. now rewrite fmap_app.
  - rewrite app_nil_r.
    destruct (findIndex_cases (hasHash h) (withdrawalBundles s))
      as [[_ Hall] | (i & b & _ & Hfirst)].
    + now rewrite (ack_unknown h k s Hall).
    + rewrite (ack_known h k s i b Hfirst). simpl.
      rewrite list_fmap_insert, bundleKey_set_workScore.
      apply list_insert_id. rewrite list_lookup_fmap.
      destruct Hfirst as (-> & _). reflexivity.
  - rewrite app_nil_r.
    destruct (find (hasHash h) (withdrawalBundles s)) as [b|] eqn:Hf.
    + now rewrite (withdrawal_known h s b Hf).
    + now rewrite (withdrawal_unknown h s Hf).
  - rewrite getState_runs. simpl. now rewrite app_nil_r.
Qed.

Lemma run_cons (c : Call) (cs : list Call) (s : BIP300Service) :
  run (c :: cs) s = run cs (snd (exec c s)).
Proof. reflexivity. Qed.

(** X11: the store is append-only and its keys are fixed.  After any
    sequence of public calls, the sidechain numbers, hashes and
    [blocksRemaining] of the stored bundles are those of the store before,
    in the same order, followed by one entry per proposal among the calls,
    in call order, each with [blocksRemaining] 26299.  So no call removes,
    reorders or rekeys a bundle, [blocksRemaining] never counts down, and
    the store grows by exactly the number of proposals. *)
Theorem store_keys_after_calls (cs : list Call) (s : BIP300Service) :
  bundleKey <$> withdrawalBundles (run cs s)
  = ((bundleKey <$> withdrawalBundles s) ++ proposalKeys cs)%list /\
  length (withdrawalBundles (run cs s))
  = (length (withdrawalBundles s) + length (proposalKeys cs))%nat.
Proof.
  assert (bundleKey <$> withdrawalBundles (run cs s)
          = ((bundleKey <$> withdrawalBundles s) ++ proposalKeys cs)%list) as Hkeys.
  { revert s. induction cs as [|c cs IH]; intros s.
    - simpl. now rewrite app_nil_r.
    - rewrite run_cons, IH, call_keys, <- app_assoc. f_equal.
      unfold proposalKeys. simpl. now rewrite app_nil_r. }
  split; [exact Hkeys|].
  apply (f_equal length) in Hkeys.
  now rewrite length_app, !length_fmap in Hkeys.
Qed.

(** X12: the [network] field is write-only.  Whatever network was set,
    every public call gets the same answer and leaves the same sidechains
    and withdrawal bundles. *)
Theorem network_changes_no_answer (c : Call) (n : BitcoinNetwork) (s : BIP300Service) :
  fst (exec c (snd (exec (CallSetNetwork n) s))) = fst (exec c s) /\
  sidechains (snd (exec c (snd (exec (CallSetNetwork n) s))))
  = sidechains (snd (exec c s)) /\
  withdrawalBundles (snd (exec c (snd (exec (CallSetNetwork n) s))))
  = withdrawalBundles (snd (exec c s)).
Proof.
  destruct c as [m| |m| |m|m a f|m h|h k|h|h]; simpl;
    try (repeat split; reflexivity).
  - rewrite !getSidechain_runs. repeat split.
  - rewrite !deposit_runs. repeat split.
  - destruct (findIndex_cases (hasHash h) (withdrawalBundles s))
      as [[_ Hall] | (i & b & _ & Hfirst)].
    + rewrite (ack_unknown h k s Hall), (ack_unknown h k (set_network n s) Hall).
      repeat split.
    + rewrite (ack_known h k s i b Hfirst), (ack_known h k (set_network n s) i b Hfirst).
      repeat split.
  - destruct (find (hasHash h) (withdrawalBundles s)) as [b|] eqn:Hf.
    + rewrite (withdrawal_known h s b Hf), (withdrawal_known h (set_network n s) b Hf).
      repeat split.
    + rewrite (withdrawal_unknown h s Hf), (withdrawal_unknown h (set_network n s) Hf).
      repeat split.
  - rewrite !getState_runs. repeat split.
Qed.

(** ** Work scores that stay above the threshold *)

Lemma withdrawal_success (h : string) (s : BIP300Service) :
  succeeds (fst (createWithdrawalTransaction h s)) = true
  <-> exists b, find (hasHash h) (withdrawalBundles s) = Some b /\ 13150 <= workScore b.
Proof.
  destruct (find (hasHash h) (withdrawalBundles s)) as [b|] eqn:Hf.
  - rewrite (withdrawal_known h s b Hf). simpl.
    destruct (Z.ltb_spec (workScore b) 13150); simpl.
    + split; [discriminate|]. intros (b' & [= <-] & Hb). lia.
    + split; [|reflexivity]. intros _. exists b. split; [reflexivity|lia].
  - rewrite (withdrawal_unknown h s Hf). simpl.
    split; [discriminate|]. intros (b' & Hb' & _). discriminate.
Qed.

Lemma ripe_after_call (h : string) (c : Call) (s : BIP300Service) :
  lowersNoScore c ->
  (exists b, find (hasHash h) (withdrawalBundles s) = Some b /\ 13150 <= workScore b) ->
  exists b, find (hasHash h) (withdrawalBundles (snd (exec c s))) = Some b /\
            13150 <= workScore b.
Proof.
  intros Hc (b & Hf & Hb).
  destruct c as [n| |n| |n|n a f|n h'|h' k|h'|h']; simpl in *; eauto.
  - rewrite getSidechain_runs. simpl. eauto.
  - rewrite deposit_runs. simpl. eauto.
  - exists b. split; [|exact Hb]. now apply find_push_found.
  - destruct (findIndex_cases (hasHash h') (withdrawalBundles s))
      as [[_ Hall] | (i & b' & _ & Hfirst)].
    + rewrite (ack_unknown h' k s Hall). simpl. eauto.
    + rewrite (ack_known h' k s i b' Hfirst). simpl.
      destruct (find_first _ _ _ Hf) as [j Hj].
      pose proof (first_at_after_ack h' h k _ i j b' b Hfirst Hj) as Hafter.
      eexists. split; [exact (first_at_find _ _ _ _ Hafter)|].
      destruct (decide (i = j)) as [->|_]; [|exact Hb].
      assert (b' = b) as ->.
      { destruct Hfirst as (Ha & _), Hj as (Hb' & _). congruence. }
      simpl. lia.
  - destruct (find (hasHash h') (withdrawalBundles s)) as [b'|] eqn:Hf'.
    + rewrite (withdrawal_known h' s b' Hf'). simpl. eauto.
    + rewrite (withdrawal_unknown h' s Hf'). simpl. eauto.
  - rewrite getState_runs. simpl. eauto.
Qed.

(** X13: once the withdrawal transaction of a hash can be created, it can
    still be created after any sequence of public calls none of which is an
    ACK with a negative count: proposals, deposits, queries, network
    changes and ACKs of any hash with a count of at least 0 never take it
    back. *)
Theorem withdrawal_stays_possible (h : string) (cs : list Call) (s : BIP300Service) :
  Forall lowersNoScore cs ->
  succeeds (fst (createWithdrawalTransaction h s)) = true ->
  succeeds (fst (createWithdrawalTransaction h (run cs s))) = true.
Proof.
  intros Hcs. rewrite !withdrawal_success. revert s.
  induction Hcs as [|c cs Hc _ IH]; intros s Hripe; [exact Hripe|].
  rewrite run_cons. apply IH. now apply ripe_after_call.
Qed.

Lemma withdrawal_stays_possible_witness :
  succeeds (fst (createWithdrawalTransaction hash1
                   (run [CallSimulateAckWithdrawalBundle hash2 5;
                         CallCreateWithdrawalBundleProposal 0 hash1;
                         CallSimulateAckWithdrawalBundle hash1 0]
                      (run [CallSimulateAckWithdrawalBundle hash1 8150] bip300Service))))
  = true.
Proof.
  apply withdrawal_stays_possible.
  - repeat constructor; simpl; lia.
  - reflexivity.
Defined.

(** * Properties of the wallet service *)

(** ** Number to string conversion *)

Lemma pretty_N_go_length (x : N) (s : string) :
  (String.length s <= String.length (pretty_N_go x s))%nat.
Proof.
  revert s. induction (N.lt_wf_0 x) as [x _ IH]; intros s.
  destruct (N.eq_0_gt_0_cases x) as [->|Hpos].
  - rewrite pretty_N_go_0. lia.
  - rewrite pretty_N_go_step by exact Hpos.
    etransitivity; [|apply IH; apply N.div_lt; lia]. simpl. lia.
Qed.

Lemma numToString_nonempty (i : nat) : numToString (Z.of_nat i + 1) <> EmptyString.
Proof.
  unfold numToString. destruct (Z.of_nat i + 1) as [|p|p] eqn:Hz; try lia.
  unfold pretty, pretty_Z, pretty, pretty_positive, pretty, pretty_N.
  destruct (decide (N.pos p = 0%N)) as [Heq|_]; [discriminate|].
  rewrite pretty_N_go_step by lia.
  intros Hempty.
  pose proof (pretty_N_go_length (N.pos p `div` 10)
                (String (pretty_N_char (N.pos p `mod` 10)) EmptyString)) as Hlen.
  rewrite Hempty in Hlen. simpl in Hlen. lia.
Qed.

Lemma numToString_inj (i j : nat) :
  numToString (Z.of_nat i + 1) = numToString (Z.of_nat j + 1) -> i = j.
Proof.
  unfold numToString. intros H. apply (inj pretty) in H. lia.
Qed.

(** ** Numbered wallets *)

Lemma numbered_first_at (ws : list WalletAccount.t) (i : nat) (wallet : WalletAccount.t) :
  numbered ws -> ws !! i = Some wallet ->
  first_at (hasId (WalletAccount.id wallet)) ws i wallet.
Proof.
  intros Hnum Hi. repeat split; [exact Hi | apply String.eqb_refl |].
  intros j y Hj Hy. unfold hasId. apply String.eqb_neq.
  rewrite (Hnum i wallet Hi), (Hnum j y Hy). intros Heq.
  apply numToString_inj in Heq. lia.
Qed.

Lemma numbered_getWallet (this : Wallet.WalletService) (i : nat)
    (wallet : WalletAccount.t) :
  numbered (Wallet.wallets this) -> Wallet.wallets this !! i = Some wallet ->
  Wallet.getWallet (WalletAccount.id wallet) this = Some wallet.
Proof.
  intros Hnum Hi. unfold Wallet.getWallet.
  exact (first_at_find _ _ _ _ (numbered_first_at _ i wallet Hnum Hi)).
Qed.

Lemma numbered_push (ws : list WalletAccount.t) (wallet : WalletAccount.t) :
  numbered ws ->
  WalletAccount.id wallet = numToString (Z.of_nat (length ws) + 1) ->
  numbered (push ws wallet).
Proof.
  intros Hnum Hid i x Hi. unfold push in Hi.
  destruct (decide (i < length ws)%nat) as [Hlt|Hge].
  - rewrite lookup_app_l in Hi by exact Hlt. eauto.
  - rewrite lookup_app_r in Hi by lia.
    destruct (i - length ws)%nat as [|k] eqn:Hk; simpl in Hi; [|discriminate].
    injection Hi as <-. rewrite Hid. f_equal. lia.
Qed.

Lemma updateFirst_first_at {A} (p : A -> bool) (f : A -> A) (l : list A)
    (i : nat) (x : A) :
  first_at p l i x -> Wallet.updateFirst p f l = <[i := f x]> l.
Proof.
  revert i. induction l as [|y l IH]; intros i (Hi & Hp & Hlt).
  - destruct i; discriminate.
  - simpl. destruct i as [|i]; simpl in Hi.
    + injection Hi as ->. now rewrite Hp.
    + rewrite (Hlt 0%nat y) by (simpl; auto; lia). simpl. f_equal.
      apply IH. repeat split; auto.
      intros j z Hj Hz. apply (Hlt (S j) z); [lia | exact Hz].
Qed.

Lemma updateFirst_none {A} (p : A -> bool) (f : A -> A) (l : list A) :
  Forall (fun x => p x = false) l -> Wallet.updateFirst p f l = l.
Proof.
  induction 1 as [|x l Hx _ IH]; simpl; [reflexivity|].
  rewrite Hx. now f_equal.
Qed.

Lemma numbered_insert (ws : list WalletAccount.t) (i : nat) (x y : WalletAccount.t) :
  numbered ws -> ws !! i = Some x -> WalletAccount.id y = WalletAccount.id x ->
  numbered (<[i := y]> ws).
Proof.
  intros Hnum Hi Hid j z Hj.
  destruct (decide (i = j)) as [->|Hne].
  - rewrite list_lookup_insert_eq in Hj by (eapply lookup_lt_Some; eauto).
    injection Hj as <-. rewrite Hid. eauto.
  - rewrite list_lookup_insert_ne in Hj by exact Hne. eauto.
Qed.

(** ** What each wallet method computes *)

Ltac run_wallet :=
  unfold Wallet.async, Wallet.try_catch, Wallet.await_bip300, Wallet.dropped,
    Wallet.gets, Wallet.modify, mbind, Wallet.W_bind, mret, Wallet.W_ret; simpl.

Lemma on_bip300_same (w : Wallet.World) :
  Wallet.on_bip300 (fun _ => Wallet.bip300 w) w = w.
Proof. now destruct w. Qed.

Lemma deposit'_runs (n : Z) (amount feeRate : float) (s : BIP300Service) :
  createDepositTransaction' n amount feeRate s
  = (Fulfilled
       match find (hasEscrowNumber n) (sidechains s) with
       | None => failed ("Sidechain with escrow number " +:+ numToString n +:+ " not found")
       | Some _ => ok mockDepositTxid
       end, s).
Proof.
  unfold createDepositTransaction'. run_method. rewrite getSidechain_runs.
  now destruct (find (hasEscrowNumber n) (sidechains s)).
Qed.

(** The deposit method is the same at either type of amount. *)
Lemma deposit'_agrees (n amount feeRate : Z) (amount' feeRate' : float)
    (s : BIP300Service) :
  createDepositTransaction' n amount' feeRate' s
  = createDepositTransaction n amount feeRate s.
Proof. reflexivity. Qed.

Lemma updateBalances_runs (walletId : option string) (r1 r2 r3 r4 : float)
    (w : Wallet.World) :
  Wallet.updateBalances walletId r1 r2 r3 r4 w
  = match selectedWallet walletId (Wallet.walletService w) with
    | None => (Fulfilled (failed "Wallet not found"), w)
    | Some wallet =>
        (Fulfilled (ok true),
         Wallet.on_wallet
           (fun this =>
              Wallet.set_wallets
                (Wallet.updateFirst (hasId (WalletAccount.id wallet))
                   (Wallet.refreshed r1 r2 r3 r4) (Wallet.wallets this)) this) w)
    end.
Proof.
  unfold Wallet.updateBalances, selectedWallet. run_wallet.
  now destruct (if Wallet.truthy walletId then _ else _).
Qed.

Lemma sendTransaction_runs (address : string) (amount feeRate : float)
    (w : Wallet.World) :
  Wallet.sendTransaction address amount feeRate w
  = (Fulfilled
       match Wallet.getActiveWallet (Wallet.walletService w) with
       | None => failed "No active wallet"
       | Some wallet =>
           if (WalletAccount.total (WalletAccount.balance wallet) <? amount)%float
           then failed "Insufficient funds"
           else ok Wallet.mockSendTxid
       end, w).
Proof.
  unfold Wallet.sendTransaction. run_wallet.
  destruct (Wallet.getActiveWallet (Wallet.walletService w)) as [wallet|];
    [|reflexivity].
  now destruct (_ <? _)%float.
Qed.

Lemma depositToSidechain_runs (n : Z) (amount feeRate r1 r2 r3 r4 : float)
    (w : Wallet.World) :
  Wallet.depositToSidechain n amount feeRate r1 r2 r3 r4 w
  = match Wallet.getActiveWallet (Wallet.walletService w) with
    | None => (Fulfilled (failed "No active wallet"), w)
    | Some wallet =>
        if (WalletAccount.total (WalletAccount.balance wallet) <? amount)%float
        then (Fulfilled (failed "Insufficient funds"), w)
        else
          match find (hasEscrowNumber n) (sidechains (Wallet.bip300 w)) with
          | None =>
              (Fulfilled (failed ("Sidechain with escrow number " +:+ numToString n
                                  +:+ " not found")), w)
          | Some _ =>
              (Fulfilled (ok mockDepositTxid),
               snd (Wallet.updateBalances None r1 r2 r3 r4 w))
          end
    end.
Proof.
  unfold Wallet.depositToSidechain. run_wallet.
  destruct (Wallet.getActiveWallet (Wallet.walletService w)) as [wallet|];
    [|reflexivity].
  destruct (_ <? _)%float; [reflexivity|].
  rewrite deposit'_runs, on_bip300_same.
  destruct (find (hasEscrowNumber n) (sidechains (Wallet.bip300 w))); simpl.
  - now destruct (Wallet.updateBalances None r1 r2 r3 r4 w).
  - reflexivity.
Qed.

Lemma selected_first_at (walletId : option string) (this : Wallet.WalletService)
    (wallet : WalletAccount.t) :
  selectedWallet walletId this = Some wallet ->
  exists i, first_at (hasId (WalletAccount.id wallet)) (Wallet.wallets this) i wallet.
Proof.
  assert (forall x, Wallet.getWallet x this = Some wallet ->
            exists i, first_at (hasId (WalletAccount.id wallet))
                        (Wallet.wallets this) i wallet) as Hget.
  { intros x Hx. destruct (find_first _ _ _ Hx) as (i & Hi & Hp & Hlt).
    apply String.eqb_eq in Hp. subst x. exists i. repeat split; auto.
    apply String.eqb_refl. }
  unfold selectedWallet, Wallet.getActiveWallet.
  destruct (Wallet.truthy walletId); [apply Hget|].
  destruct (negb _); [discriminate | apply Hget].
Qed.

Lemma refreshed_id (r1 r2 r3 r4 : float) (wallet : WalletAccount.t) :
  WalletAccount.id (Wallet.refreshed r1 r2 r3 r4 wallet) = WalletAccount.id wallet.
Proof. reflexivity. Qed.

(** ** The invariant of the two singletons *)

Lemma world_invariant (w : Wallet.World) :
  Wallet.reachable w ->
  numbered (Wallet.wallets (Wallet.walletService w)) /\
  (exists i wallet,
     Wallet.wallets (Wallet.walletService w) !! i = Some wallet /\
     Wallet.activeWalletId (Wallet.walletService w) = Some (WalletAccount.id wallet)) /\
  reachable (Wallet.bip300 w).
Proof.
  induction 1 as [|a w Hr (Hnum & (i & active & Hi & Hact) & Hb)].
  - split; [|split].
    + intros [|[|i]] wallet Hw; simpl in Hw; try discriminate.
      injection Hw as <-. reflexivity.
    + exists 0%nat, Wallet.mockWallet. split; reflexivity.
    + exact reachable_new.
  - destruct a as [n|n p|n m p|i'|wid r1 r2 r3 r4|ad amt f|n amt f r1 r2 r3 r4| |c].
    + split; [exact Hnum|]. split; [exists i, active; auto|].
      exact (reachable_call (CallSetNetwork n) _ Hb).
    + simpl. split; [|split; [|exact Hb]].
      * apply numbered_push; [exact Hnum | reflexivity].
      * exists (length (Wallet.wallets (Wallet.walletService w))), 
          (Wallet.newWallet n (Wallet.walletService w)).
        split; [|reflexivity].
        unfold push. rewrite lookup_app_r by lia. now rewrite Nat.sub_diag.
    + simpl. split; [|split; [|exact Hb]].
      * apply numbered_push; [exact Hnum | reflexivity].
      * exists (length (Wallet.wallets (Wallet.walletService w))), 
          (Wallet.newWallet n (Wallet.walletService w)).
        split; [|reflexivity].
        unfold push. rewrite lookup_app_r by lia. now rewrite Nat.sub_diag.
    + simpl. unfold Wallet.setActiveWallet.
      destruct (Wallet.getWallet i' (Wallet.walletService w)) as [x|] eqn:Hx; simpl.
      * split; [exact Hnum|]. split; [|exact Hb].
        destruct (find_first _ _ _ Hx) as (j & Hj & Hp & _).
        apply String.eqb_eq in Hp. exists j, x. split; [exact Hj | now rewrite Hp].
      * split; [exact Hnum|]. split; [exists i, active; auto | exact Hb].
    + simpl. rewrite updateBalances_runs.
      destruct (selectedWallet wid (Wallet.walletService w)) as [x|] eqn:Hsel; simpl.
      * destruct (selected_first_at _ _ _ Hsel) as [j Hj].
        rewrite (updateFirst_first_at _ _ _ j x Hj).
        destruct Hj as (Hj & _).
        split; [|split; [|exact Hb]].
        -- eapply numbered_insert; eauto.
        -- destruct (decide (j = i)) as [->|Hne].
           ++ exists i, (Wallet.refreshed r1 r2 r3 r4 x).
              split; [apply list_lookup_insert_eq; eapply lookup_lt_Some; eauto|].
              rewrite Hact, refreshed_id. congruence.
           ++ exists i, active. split; [|exact Hact].
              rewrite list_lookup_insert_ne by exact Hne. exact Hi.
      * split; [exact Hnum|]. split; [exists i, active; auto | exact Hb].
    + simpl. rewrite sendTransaction_runs. simpl.
      split; [exact Hnum|]. split; [exists i, active; auto | exact Hb].
    + simpl. rewrite depositToSidechain_runs.
      assert (numbered (Wallet.wallets (Wallet.walletService
                          (snd (Wallet.updateBalances None r1 r2 r3 r4 w)))) /\
              (exists i wallet,
                 Wallet.wallets (Wallet.walletService
                   (snd (Wallet.updateBalances None r1 r2 r3 r4 w))) !! i = Some wallet /\
                 Wallet.activeWalletId (Wallet.walletService
                   (snd (Wallet.updateBalances None r1 r2 r3 r4 w)))
                 = Some (WalletAccount.id wallet)) /\
              reachable (Wallet.bip300 (snd (Wallet.updateBalances None r1 r2 r3 r4 w))))
        as Hupd.
      { rewrite updateBalances_runs.
        destruct (selectedWallet None (Wallet.walletService w)) as [y|] eqn:Hsel; simpl.
        - destruct (selected_first_at _ _ _ Hsel) as [j Hj].
          rewrite (updateFirst_first_at _ _ _ j y Hj).
          destruct Hj as (Hj & _).
          split; [|split; [|exact Hb]].
          + eapply numbered_insert; eauto.
          + destruct (decide (j = i)) as [->|Hne].
            * exists i, (Wallet.refreshed r1 r2 r3 r4 y).
              split; [apply list_lookup_insert_eq; eapply lookup_lt_Some; eauto|].
              rewrite Hact, refreshed_id. congruence.
            * exists i, active. split; [|exact Hact].
              rewrite list_lookup_insert_ne by exact Hne. exact Hi.
        - split; [exact Hnum|]. split; [exists i, active; auto | exact Hb]. }
      destruct (Wallet.getActiveWallet (Wallet.walletService w)) as [x|]; simpl.
      * destruct (_ <? _)%float; simpl.
        -- split; [exact Hnum|]. split; [exists i, active; auto | exact Hb].
        -- destruct (find (hasEscrowNumber n) (sidechains (Wallet.bip300 w))); simpl.
           ++ exact Hupd.
           ++ split; [exact Hnum|]. split; [exists i, active; auto | exact Hb].
      * split; [exact Hnum|]. split; [exists i, active; auto | exact Hb].
    + simpl. split; [exact Hnum|]. split; [exists i, active; auto | exact Hb].
    + simpl. split; [exact Hnum|]. split; [exists i, active; auto|].
      exact (reachable_call c _ Hb).
Qed.

Lemma truthy_nonempty (x : string) :
  x <> EmptyString ->
  Wallet.truthy (Some x) = true /\ Wallet.orElse (Some x) EmptyString = x.
Proof. destruct x; [congruence | split; reflexivity]. Qed.

Lemma numbered_nonempty (ws : list WalletAccount.t) (i : nat) (wallet : WalletAccount.t) :
  numbered ws -> ws !! i = Some wallet -> WalletAccount.id wallet <> EmptyString.
Proof. intros Hnum Hi. rewrite (Hnum i wallet Hi). apply numToString_nonempty. Qed.

Lemma reachable_active (w : Wallet.World) :
  Wallet.reachable w ->
  exists i wallet,
    Wallet.wallets (Wallet.walletService w) !! i = Some wallet /\
    Wallet.activeWalletId (Wallet.walletService w) = Some (WalletAccount.id wallet) /\
    Wallet.getActiveWallet (Wallet.walletService w) = Some wallet.
Proof.
  intros Hr. destruct (world_invariant w Hr) as (Hnum & (i & wallet & Hi & Hact) & _).
  exists i, wallet. split; [exact Hi|]. split; [exact Hact|].
  unfold Wallet.getActiveWallet. rewrite Hact.
  destruct (truthy_nonempty _ (numbered_nonempty _ i wallet Hnum Hi)) as [-> ->].
  simpl. exact (numbered_getWallet _ i wallet Hnum Hi).
Qed.

Lemma getWallet_In (id' : string) (this : Wallet.WalletService) (wallet : WalletAccount.t) :
  Wallet.getWallet id' this = Some wallet ->
  wallet ∈ Wallet.wallets this /\ WalletAccount.id wallet = id'.
Proof.
  intros Hg. destruct (find_In _ _ _ Hg) as [Hin Hp].
  split; [exact Hin | now apply String.eqb_eq].
Qed.

Lemma getWallet_None (id' : string) (this : Wallet.WalletService) :
  Wallet.getWallet id' this = None ->
  forall wallet, wallet ∈ Wallet.wallets this -> WalletAccount.id wallet <> id'.
Proof.
  intros Hg wallet Hin. pose proof (find_None _ _ Hg) as Hall.
  rewrite Forall_forall in Hall. apply String.eqb_neq. exact (Hall wallet Hin).
Qed.

(** ** The wallets and the active wallet *)

(** X14: in every state the wallet service reaches, the ids of the wallets
    are pairwise different, [getWallet] of a stored wallet's id answers
    with that wallet, and the active wallet id is the id of a stored
    wallet, so that [getActiveWallet] never answers [undefined]. *)
Theorem active_wallet_always_exists (w : Wallet.World) :
  Wallet.reachable w ->
  (exists i wallet,
     Wallet.wallets (Wallet.walletService w) !! i = Some wallet /\
     Wallet.activeWalletId (Wallet.walletService w) = Some (WalletAccount.id wallet) /\
     Wallet.getActiveWallet (Wallet.walletService w) = Some wallet) /\
  (forall j k wj wk,
     Wallet.wallets (Wallet.walletService w) !! j = Some wj ->
     Wallet.wallets (Wallet.walletService w) !! k = Some wk ->
     WalletAccount.id wj = WalletAccount.id wk -> j = k) /\
  (forall j wj,
     Wallet.wallets (Wallet.walletService w) !! j = Some wj ->
     Wallet.getWallet (WalletAccount.id wj) (Wallet.walletService w) = Some wj).
Proof.
  intros Hr. split; [exact (reachable_active w Hr)|].
  destruct (world_invariant w Hr) as (Hnum & _ & _). split.
  - intros j k wj wk Hj Hk Heq.
    rewrite (Hnum j wj Hj), (Hnum k wk Hk) in Heq. now apply numToString_inj.
  - intros j wj Hj. exact (numbered_getWallet _ j wj Hnum Hj).
Qed.

Lemma active_wallet_always_exists_witness :
  (exists i wallet,
     Wallet.wallets (Wallet.walletService
       (Wallet.perform (Wallet.SetActiveWallet "1")
          (Wallet.perform (Wallet.CreateWallet "Savings" None) Wallet.world0)))
       !! i = Some wallet /\
     Wallet.activeWalletId (Wallet.walletService
       (Wallet.perform (Wallet.SetActiveWallet "1")
          (Wallet.perform (Wallet.CreateWallet "Savings" None) Wallet.world0)))
     = Some (WalletAccount.id wallet) /\
     Wallet.getActiveWallet (Wallet.walletService
       (Wallet.perform (Wallet.SetActiveWallet "1")
          (Wallet.perform (Wallet.CreateWallet "Savings" None) Wallet.world0)))
     = Some wallet) /\
  (forall j k wj wk,
     Wallet.wallets (Wallet.walletService
       (Wallet.perform (Wallet.SetActiveWallet "1")
          (Wallet.perform (Wallet.CreateWallet "Savings" None) Wallet.world0)))
       !! j = Some wj ->
     Wallet.wallets (Wallet.walletService
       (Wallet.perform (Wallet.SetActiveWallet "1")
          (Wallet.perform (Wallet.CreateWallet "Savings" None) Wallet.world0)))
       !! k = Some wk ->
     WalletAccount.id wj = WalletAccount.id wk -> j = k) /\
  (forall j wj,
     Wallet.wallets (Wallet.walletService
       (Wallet.perform (Wallet.SetActiveWallet "1")
          (Wallet.perform (Wallet.CreateWallet "Savings" None) Wallet.world0)))
       !! j = Some wj ->
     Wallet.getWallet (WalletAccount.id wj) (Wallet.walletService
       (Wallet.perform (Wallet.SetActiveWallet "1")
          (Wallet.perform (Wallet.CreateWallet "Savings" None) Wallet.world0)))
     = Some wj).
Proof.
  apply active_wallet_always_exists.
  apply Wallet.reachable_call, Wallet.reachable_call, Wallet.reachable_new.
Defined.

(** X15: in every state the wallet service reaches, [createWallet] succeeds
    with a new wallet that has the given name, the network of the service,
    zero balances and no sidechain balances, together with the mock
    mnemonic; the wallet is appended, becomes the active wallet, is the one
    [getWallet] answers for its id, and every earlier wallet is still the
    one [getWallet] answers for its id. *)
Theorem created_wallet_is_active (name' : string) (passphrase : option string)
    (w : Wallet.World) :
  Wallet.reachable w ->
  exists created,
    fst (Wallet.createWallet name' passphrase w) = Fulfilled (ok created) /\
    Wallet.mnemonic created = Wallet.mockMnemonic /\
    WalletAccount.name (Wallet.wallet created) = name' /\
    WalletAccount.network (Wallet.wallet created)
    = Wallet.getNetwork (Wallet.walletService w) /\
    WalletAccount.balance (Wallet.wallet created)
    = {| WalletAccount.confirmed := 0; WalletAccount.unconfirmed := 0;
         WalletAccount.total := 0 |} /\
    WalletAccount.sidechainBalances (Wallet.wallet created) = [] /\
    Wallet.getWallets (Wallet.walletService (snd (Wallet.createWallet name' passphrase w)))
    = (Wallet.getWallets (Wallet.walletService w) ++ [Wallet.wallet created])%list /\
    Wallet.getActiveWallet
      (Wallet.walletService (snd (Wallet.createWallet name' passphrase w)))
    = Some (Wallet.wallet created) /\
    Wallet.getWallet (WalletAccount.id (Wallet.wallet created))
      (Wallet.walletService (snd (Wallet.createWallet name' passphrase w)))
    = Some (Wallet.wallet created) /\
    (forall old, old ∈ Wallet.getWallets (Wallet.walletService w) ->
       Wallet.getWallet (WalletAccount.id old)
         (Wallet.walletService (snd (Wallet.createWallet name' passphrase w)))
       = Some old).
Proof.
  intros Hr.
  pose proof (Wallet.reachable_call (Wallet.CreateWallet name' passphrase) w Hr) as Hr'.
  destruct (world_invariant _ Hr') as (Hnum' & _ & _).
  set (this := Wallet.walletService w) in *.
  set (nw := Wallet.newWallet name' this) in *.
  set (this' := Wallet.set_activeWalletId (Some (WalletAccount.id nw))
                  (Wallet.set_wallets (push (Wallet.wallets this) nw) this)).
  change (numbered (Wallet.wallets this')) in Hnum'.
  assert (Wallet.wallets this' !! length (Wallet.wallets this) = Some nw) as Hlast.
  { simpl. unfold push. rewrite lookup_app_r by lia. now rewrite Nat.sub_diag. }
  exists {| Wallet.wallet := nw; Wallet.mnemonic := Wallet.mockMnemonic |}.
  split; [reflexivity|].
  change (Wallet.walletService (snd (Wallet.createWallet name' passphrase w)))
    with this'.
  simpl Wallet.wallet. simpl Wallet.mnemonic.
  do 6 (split; [reflexivity|]).
  split; [|split].
  - unfold Wallet.getActiveWallet.
    change (Wallet.activeWalletId this') with (Some (WalletAccount.id nw)).
    destruct (truthy_nonempty _ (numbered_nonempty _ _ nw Hnum' Hlast)) as [-> ->].
    simpl negb. cbv iota. exact (numbered_getWallet this' _ nw Hnum' Hlast).
  - exact (numbered_getWallet this' _ nw Hnum' Hlast).
  - intros old Hold. apply list_elem_of_lookup in Hold as [j Hj].
    apply (numbered_getWallet this' j old Hnum').
    simpl. unfold push. rewrite lookup_app_l by (eapply lookup_lt_Some; eauto).
    exact Hj.
Qed.

Lemma created_wallet_is_active_witness :
  exists created,
    fst (Wallet.createWallet "Savings" None Wallet.world0) = Fulfilled (ok created) /\
    Wallet.mnemonic created = Wallet.mockMnemonic /\
    WalletAccount.name (Wallet.wallet created) = "Savings" /\
    WalletAccount.network (Wallet.wallet created)
    = Wallet.getNetwork (Wallet.walletService Wallet.world0) /\
    WalletAccount.balance (Wallet.wallet created)
    = {| WalletAccount.confirmed := 0; WalletAccount.unconfirmed := 0;
         WalletAccount.total := 0 |} /\
    WalletAccount.sidechainBalances (Wallet.wallet created) = [] /\
    Wallet.getWallets (Wallet.walletService (snd (Wallet.createWallet "Savings" None Wallet.world0)))
    = (Wallet.getWallets (Wallet.walletService Wallet.world0) ++ [Wallet.wallet created])%list /\
    Wallet.getActiveWallet
      (Wallet.walletService (snd (Wallet.createWallet "Savings" None Wallet.world0)))
    = Some (Wallet.wallet created) /\
    Wallet.getWallet (WalletAccount.id (Wallet.wallet created))
      (Wallet.walletService (snd (Wallet.createWallet "Savings" None Wallet.world0)))
    = Some (Wallet.wallet created) /\
    (forall old, old ∈ Wallet.getWallets (Wallet.walletService Wallet.world0) ->
       Wallet.getWallet (WalletAccount.id old)
         (Wallet.walletService (snd (Wallet.createWallet "Savings" None Wallet.world0)))
       = Some old).
Proof.
  apply created_wallet_is_active. exact Wallet.reachable_new.
Defined.

(** X16: in every state the wallet service reaches, [setActiveWallet(id)]
    answers [true] exactly when a stored wallet has the id; on [false] the
    service is unchanged; on [true] the wallets are unchanged and
    [getActiveWallet] then answers with the wallet [getWallet(id)]
    answered. *)
Theorem setActiveWallet_selects (id' : string) (w : Wallet.World) :
  Wallet.reachable w ->
  (fst (Wallet.setActiveWallet id' (Wallet.walletService w)) = true <->
   exists wallet, wallet ∈ Wallet.wallets (Wallet.walletService w) /\
                  WalletAccount.id wallet = id') /\
  (fst (Wallet.setActiveWallet id' (Wallet.walletService w)) = false ->
   snd (Wallet.setActiveWallet id' (Wallet.walletService w)) = Wallet.walletService w) /\
  (fst (Wallet.setActiveWallet id' (Wallet.walletService w)) = true ->
   Wallet.wallets (snd (Wallet.setActiveWallet id' (Wallet.walletService w)))
   = Wallet.wallets (Wallet.walletService w) /\
   Wallet.getActiveWallet (snd (Wallet.setActiveWallet id' (Wallet.walletService w)))
   = Wallet.getWallet id' (Wallet.walletService w)).
Proof.
  intros Hr. destruct (world_invariant w Hr) as (Hnum & _ & _).
  unfold Wallet.setActiveWallet.
  destruct (Wallet.getWallet id' (Wallet.walletService w)) as [wallet|] eqn:Hg; simpl.
  - destruct (getWallet_In _ _ _ Hg) as [Hin Hid].
    split; [split; eauto|]. split; [discriminate|]. intros _. split; [reflexivity|].
    apply list_elem_of_lookup in Hin as [j Hj].
    assert (id' <> EmptyString) as Hne
      by (rewrite <- Hid; exact (numbered_nonempty _ j wallet Hnum Hj)).
    unfold Wallet.getActiveWallet.
    cbn [Wallet.activeWalletId Wallet.set_activeWalletId].
    destruct (truthy_nonempty _ Hne) as [-> ->]. exact Hg.
  - split; [|split; [reflexivity | discriminate]].
    split; [discriminate|]. intros (wallet & Hin & Hid).
    now destruct (getWallet_None _ _ Hg wallet Hin).
Qed.

Lemma setActiveWallet_selects_witness :
  (fst (Wallet.setActiveWallet "1" (Wallet.walletService Wallet.world0)) = true <->
   exists wallet, wallet ∈ Wallet.wallets (Wallet.walletService Wallet.world0) /\
                  WalletAccount.id wallet = "1") /\
  (fst (Wallet.setActiveWallet "1" (Wallet.walletService Wallet.world0)) = false ->
   snd (Wallet.setActiveWallet "1" (Wallet.walletService Wallet.world0))
   = Wallet.walletService Wallet.world0) /\
  (fst (Wallet.setActiveWallet "1" (Wallet.walletService Wallet.world0)) = true ->
   Wallet.wallets (snd (Wallet.setActiveWallet "1" (Wallet.walletService Wallet.world0)))
   = Wallet.wallets (Wallet.walletService Wallet.world0) /\
   Wallet.getActiveWallet
     (snd (Wallet.setActiveWallet "1" (Wallet.walletService Wallet.world0)))
   = Wallet.getWallet "1" (Wallet.walletService Wallet.world0)).
Proof.
  apply setActiveWallet_selects. exact Wallet.reachable_new.
Defined.

(** ** Spending *)

(** X17: in every state the wallet service reaches, [sendTransaction]
    finds an active wallet; it answers 'Insufficient funds' when the total
    balance of that wallet is less than the amount and the mock
    transaction id otherwise, whatever the address and the fee rate; and it
    changes neither singleton (the amount is not taken from the balance). *)
Theorem sendTransaction_checks_the_balance (address : string) (amount feeRate : float)
    (w : Wallet.World) :
  Wallet.reachable w ->
  exists wallet,
    Wallet.getActiveWallet (Wallet.walletService w) = Some wallet /\
    Wallet.sendTransaction address amount feeRate w
    = (Fulfilled
         (if (WalletAccount.total (WalletAccount.balance wallet) <? amount)%float
          then failed "Insufficient funds"
          else ok Wallet.mockSendTxid), w).
Proof.
  intros Hr. destruct (reachable_active w Hr) as (i & wallet & _ & _ & Hget).
  exists wallet. split; [exact Hget|].
  now rewrite sendTransaction_runs, Hget.
Qed.

Lemma sendTransaction_checks_the_balance_witness :
  exists wallet,
    Wallet.getActiveWallet (Wallet.walletService Wallet.world0) = Some wallet /\
    Wallet.sendTransaction "tb1qnv5luf8mav8263sxfa4fdr3m6kws74n0yfzzrx" 0.5 1 Wallet.world0
    = (Fulfilled
         (if (WalletAccount.total (WalletAccount.balance wallet) <? 0.5)%float
          then failed "Insufficient funds"
          else ok Wallet.mockSendTxid), Wallet.world0).
Proof.
  apply sendTransaction_checks_the_balance. exact Wallet.reachable_new.
Defined.

Lemma find_mock_sidechain (n : Z) :
  is_Some (find (hasEscrowNumber n) mockSidechains) <-> 0 <= n <= 3.
Proof.
  rewrite find_is_Some. split.
  - intros (sc & Hin & Hp). apply Z.eqb_eq in Hp. subst n.
    apply list_elem_of_In in Hin. simpl in Hin.
    destruct Hin as [<-|[<-|[<-|[<-|[]]]]]; simpl; lia.
  - intros Hn.
    assert (exists i : nat, (i < 4)%nat /\ n = Z.of_nat i) as (i & Hi & ->)
      by (exists (Z.to_nat n); lia).
    assert (is_Some (mockSidechains !! i)) as [sc Hsc]
      by (apply lookup_lt_is_Some; simpl; lia).
    exists sc. split; [apply list_elem_of_lookup; eauto|].
    destruct i as [|[|[|[|i]]]]; [| | | |lia]; injection Hsc as <-; reflexivity.
Qed.

(** X18: in every state the wallet service reaches, [depositToSidechain]
    finds an active wallet and answers, in this order of precedence:
    'Insufficient funds' when the total balance of that wallet is less
    than the amount, with both singletons unchanged; else, for a sidechain
    number other than 0, 1, 2 and 3, the not-found failure of the BIP300
    service, with both singletons unchanged; else the mock deposit
    transaction id, the singletons being left as a call of
    [updateBalances()] leaves them: the balances of the active wallet are
    drawn afresh and do not depend on the amount.  The BIP300 singleton is
    never changed. *)
Theorem deposit_outcomes (n : Z) (amount feeRate r1 r2 r3 r4 : float)
    (w : Wallet.World) :
  Wallet.reachable w ->
  exists wallet,
    Wallet.getActiveWallet (Wallet.walletService w) = Some wallet /\
    Wallet.depositToSidechain n amount feeRate r1 r2 r3 r4 w
    = (if (WalletAccount.total (WalletAccount.balance wallet) <? amount)%float
       then (Fulfilled (failed "Insufficient funds"), w)
       else if (0 <=? n) && (n <=? 3)
       then (Fulfilled (ok mockDepositTxid),
             snd (Wallet.updateBalances None r1 r2 r3 r4 w))
       else (Fulfilled (failed ("Sidechain with escrow number " +:+ numToString n
                               +:+ " not found")), w)) /\
    Wallet.bip300 (snd (Wallet.depositToSidechain n amount feeRate r1 r2 r3 r4 w))
    = Wallet.bip300 w.
Proof.
  intros Hr. destruct (reachable_active w Hr) as (i & wallet & _ & _ & Hget).
  destruct (world_invariant w Hr) as (_ & _ & Hb).
  pose proof (reachable_sidechains _ Hb) as Hs.
  exists wallet. split; [exact Hget|].
  rewrite depositToSidechain_runs, Hget, Hs.
  assert (Wallet.bip300 (snd (Wallet.updateBalances None r1 r2 r3 r4 w))
          = Wallet.bip300 w) as Hsame.
  { rewrite updateBalances_runs.
    now destruct (selectedWallet None (Wallet.walletService w)). }
  destruct (_ <? _)%float; [split; reflexivity|].
  pose proof (find_mock_sidechain n) as Hfind.
  destruct (find (hasEscrowNumber n) mockSidechains) as [sc|].
  - assert (0 <= n <= 3) as Hn by (apply Hfind; eauto).
    destruct (Z.leb_spec 0 n), (Z.leb_spec n 3); try lia. simpl.
    split; [reflexivity | exact Hsame].
  - assert (~ 0 <= n <= 3) as Hn by (intros Hn; apply Hfind in Hn as [? [=]]).
    destruct (Z.leb_spec 0 n), (Z.leb_spec n 3); try lia; simpl;
      split; reflexivity.
Qed.

Lemma deposit_outcomes_witness :
  exists wallet,
    Wallet.getActiveWallet (Wallet.walletService Wallet.world0) = Some wallet /\
    Wallet.depositToSidechain 2 0.05 1 0.5 0.25 0.5 0.75 Wallet.world0
    = (if (WalletAccount.total (WalletAccount.balance wallet) <? 0.05)%float
       then (Fulfilled (failed "Insufficient funds"), Wallet.world0)
       else if (0 <=? 2) && (2 <=? 3)
       then (Fulfilled (ok mockDepositTxid),
             snd (Wallet.updateBalances None 0.5 0.25 0.5 0.75 Wallet.world0))
       else (Fulfilled (failed ("Sidechain with escrow number " +:+ numToString 2
                               +:+ " not found")), Wallet.world0)) /\
    Wallet.bip300 (snd (Wallet.depositToSidechain 2 0.05 1 0.5 0.25 0.5 0.75 Wallet.world0))
    = Wallet.bip300 Wallet.world0.
Proof.
  apply deposit_outcomes. exact Wallet.reachable_new.
Defined.

(** ** Refreshing the balances *)

(** X19: in every state the wallet service reaches, [updateBalances] on a
    wallet it selects (by a stored id, or the active wallet when no id or
    the empty string is given) succeeds and replaces exactly that wallet,
    at its index, keeping its id, name, type and network.  The new total
    balance is the sum of the new confirmed and unconfirmed balances, the
    sidechain balances are those of sidechains 0 and 2, each with a total
    equal to the sum of its confirmed and unconfirmed parts.  The other
    wallets, the active wallet id, the network and the BIP300 singleton
    are unchanged. *)
Theorem updateBalances_refreshes_one_wallet (walletId : option string)
    (r1 r2 r3 r4 : float) (w : Wallet.World) (i : nat) (x : WalletAccount.t) :
  Wallet.reachable w ->
  Wallet.wallets (Wallet.walletService w) !! i = Some x ->
  (if Wallet.truthy walletId then walletId
   else Wallet.activeWalletId (Wallet.walletService w)) = Some (WalletAccount.id x) ->
  exists y,
    Wallet.updateBalances walletId r1 r2 r3 r4 w
    = (Fulfilled (ok true),
       {| Wallet.walletService :=
            {| Wallet.wallets := <[i := y]> (Wallet.wallets (Wallet.walletService w));
               Wallet.activeWalletId := Wallet.activeWalletId (Wallet.walletService w);
               Wallet.network := Wallet.network (Wallet.walletService w) |};
          Wallet.bip300 := Wallet.bip300 w |}) /\
    WalletAccount.id y = WalletAccount.id x /\
    WalletAccount.name y = WalletAccount.name x /\
    WalletAccount.type y = WalletAccount.type x /\
    WalletAccount.network y = WalletAccount.network x /\
    WalletAccount.confirmed (WalletAccount.balance y) = (r1 * 0.2)%float /\
    WalletAccount.unconfirmed (WalletAccount.balance y) = (r2 * 0.1)%float /\
    WalletAccount.total (WalletAccount.balance y)
    = (WalletAccount.confirmed (WalletAccount.balance y)
       + WalletAccount.unconfirmed (WalletAccount.balance y))%float /\
    fst <$> WalletAccount.sidechainBalances y = [0; 2] /\
    Forall (fun entry : Z * WalletAccount.Balance =>
              WalletAccount.total (snd entry)
              = (WalletAccount.confirmed (snd entry)
                 + WalletAccount.unconfirmed (snd entry))%float)
           (WalletAccount.sidechainBalances y).
Proof.
  intros Hr Hi Hsel. destruct (world_invariant w Hr) as (Hnum & _ & _).
  pose proof (numbered_nonempty _ i x Hnum Hi) as Hne.
  pose proof (numbered_getWallet _ i x Hnum Hi) as Hget.
  assert (selectedWallet walletId (Wallet.walletService w) = Some x) as Hx.
  { unfold selectedWallet, Wallet.getActiveWallet.
    destruct (Wallet.truthy walletId) eqn:Ht.
    - subst walletId. destruct (truthy_nonempty _ Hne) as [_ ->]. exact Hget.
    - rewrite Hsel. destruct (truthy_nonempty _ Hne) as [-> ->]. exact Hget. }
  exists (Wallet.refreshed r1 r2 r3 r4 x).
  split; [|repeat split; repeat constructor].
  rewrite updateBalances_runs, Hx. f_equal. unfold Wallet.on_wallet. simpl.
  now rewrite (updateFirst_first_at _ _ _ i x (numbered_first_at _ i x Hnum Hi)).
Qed.

Lemma updateBalances_refreshes_one_wallet_witness :
  exists y,
    Wallet.updateBalances (Some EmptyString) 0.5 0.25 0.5 0.75 Wallet.world0
    = (Fulfilled (ok true),
       {| Wallet.walletService :=
            {| Wallet.wallets :=
                 <[0%nat := y]> (Wallet.wallets (Wallet.walletService Wallet.world0));
               Wallet.activeWalletId :=
                 Wallet.activeWalletId (Wallet.walletService Wallet.world0);
               Wallet.network := Wallet.network (Wallet.walletService Wallet.world0) |};
          Wallet.bip300 := Wallet.bip300 Wallet.world0 |}) /\
    WalletAccount.id y = WalletAccount.id Wallet.mockWallet /\
    WalletAccount.name y = WalletAccount.name Wallet.mockWallet /\
    WalletAccount.type y = WalletAccount.type Wallet.mockWallet /\
    WalletAccount.network y = WalletAccount.network Wallet.mockWallet /\
    WalletAccount.confirmed (WalletAccount.balance y) = (0.5 * 0.2)%float /\
    WalletAccount.unconfirmed (WalletAccount.balance y) = (0.25 * 0.1)%float /\
    WalletAccount.total (WalletAccount.balance y)
    = (WalletAccount.confirmed (WalletAccount.balance y)
       + WalletAccount.unconfirmed (WalletAccount.balance y))%float /\
    fst <$> WalletAccount.sidechainBalances y = [0; 2] /\
    Forall (fun entry : Z * WalletAccount.Balance =>
              WalletAccount.total (snd entry)
              = (WalletAccount.confirmed (snd entry)
                 + WalletAccount.unconfirmed (snd entry))%float)
           (WalletAccount.sidechainBalances y).
Proof.
  apply (updateBalances_refreshes_one_wallet (Some EmptyString) 0.5 0.25 0.5 0.75
           Wallet.world0 0 Wallet.mockWallet).
  - exact Wallet.reachable_new.
  - reflexivity.
  - reflexivity.
Defined.

(** X20: in every state the wallet service reaches, [updateBalances] fails
    only for a non-empty id that no stored wallet has; it then answers
    'Wallet not found' and changes nothing.  Without an id, and with the
    empty string, it always succeeds. *)
Theorem updateBalances_fails_only_for_unknown_id (walletId : option string)
    (r1 r2 r3 r4 : float) (w : Wallet.World) :
  Wallet.reachable w ->
  (succeeds (fst (Wallet.updateBalances walletId r1 r2 r3 r4 w)) = false <->
   exists id', walletId = Some id' /\ id' <> EmptyString /\
               forall wallet, wallet ∈ Wallet.wallets (Wallet.walletService w) ->
                              WalletAccount.id wallet <> id') /\
  (succeeds (fst (Wallet.updateBalances walletId r1 r2 r3 r4 w)) = false ->
   Wallet.updateBalances walletId r1 r2 r3 r4 w
   = (Fulfilled (failed "Wallet not found"), w)).
Proof.
  intros Hr. destruct (reachable_active w Hr) as (i & active & _ & _ & Hget).
  rewrite updateBalances_runs. unfold selectedWallet.
  destruct (Wallet.truthy walletId) eqn:Ht.
  - destruct walletId as [[|c id']|]; try discriminate. simpl Wallet.orElse.
    destruct (Wallet.getWallet (String c id') (Wallet.walletService w))
      as [x|] eqn:Hg; simpl.
    + split; [|discriminate]. split; [discriminate|].
      intros (id'' & [= <-] & _ & Hnone).
      destruct (getWallet_In _ _ _ Hg) as [Hin Hid]. now destruct (Hnone x Hin).
    + split; [|reflexivity]. split; [|reflexivity]. intros _.
      exists (String c id'). repeat split; [discriminate|].
      exact (getWallet_None _ _ Hg).
  - rewrite Hget. simpl. split; [|discriminate]. split; [discriminate|].
    intros (id' & -> & Hne & _). destruct id'; [congruence | discriminate].
Qed.

Lemma updateBalances_fails_only_for_unknown_id_witness :
  (succeeds (fst (Wallet.updateBalances (Some "7") 0.5 0.25 0.5 0.75 Wallet.world0))
   = false <->
   exists id', Some "7" = Some id' /\ id' <> EmptyString /\
               forall wallet, wallet ∈ Wallet.wallets (Wallet.walletService Wallet.world0) ->
                              WalletAccount.id wallet <> id') /\
  (succeeds (fst (Wallet.updateBalances (Some "7") 0.5 0.25 0.5 0.75 Wallet.world0))
   = false ->
   Wallet.updateBalances (Some "7") 0.5 0.25 0.5 0.75 Wallet.world0
   = (Fulfilled (failed "Wallet not found"), Wallet.world0)).
Proof.
  apply updateBalances_fails_only_for_unknown_id. exact Wallet.reachable_new.
Defined.
